(** * PyGeM [vtkhandler.py]: a shallow embedding of [VtkHandler]

    The handler of [src/pygem/vtkhandler.py] is glue code over three
    collaborators: the base class [pygem.filehandler.FileHandler] (its
    three [_check_*] helpers), the visualization toolkit (readers,
    writer, point container, rendering pipeline) and the plotting library
    (figure, 3D polygon collections).  The four methods [parse], [write],
    [plot] and [show] are translated statement by statement into a state
    and exception monad over

    - the handler object ([infile], [outfile], [extension]),
    - a disk (paths to file contents), and
    - a log of the I/O performed (files read and written, figures shown,
      interactive sessions started).

    Python exceptions keep the side effects that happened before them, so
    a computation returns the final state together with either a value or
    the exception raised.

    What the libraries and the system decide, and the program does not,
    is a parameter of the embedding (the class [Platform], and the
    conversion [vtk_float] of the toolkit's point container): the
    precision of the numbers the toolkit stores and prints, the paths
    that can be written, and the behaviour of numpy and of the toolkit
    where their releases differ.  The properties hold for every
    platform; the examples are computed on one. *)

From stdpp Require Import base option list strings gmap fin_maps.
From Stdlib Require Import Ascii ZArith Lia.

Local Open Scope string_scope.
Local Open Scope list_scope.

(** ** Python values and exceptions *)

(** The values a caller can pass where the methods expect a file name. *)
Inductive pyobj : Type :=
  | PyNone
  | PyStr (s : string)
  | PyInt (z : Z).

(** The error taxonomy: invalid arguments (wrong path type, wrong
    extension), the failed precondition of [write], numpy's index error
    and its type error for an argument it rejects, and failures raised
    inside the toolkit or the plotting library. *)
Inductive arg_error : Type := NotAString | WrongExtension.

Inductive exn : Type :=
  | InvalidArgument (why : arg_error)
  | PreconditionError
  | IndexError
  | NumpyTypeError
  | ToolkitError.

Inductive result (A : Type) : Type :=
  | Return (a : A)
  | Raise (e : exn).
Arguments Return {A} a.
Arguments Raise {A} e.

#[global] Instance result_ret : MRet result := fun A a => Return a.
#[global] Instance result_bind : MBind result := fun A B f m =>
  match m with
  | Return a => f a
  | Raise e => Raise e
  end.

Definition is_raise {A} (r : result A) : bool :=
  match r with Raise _ => true | Return _ => false end.

(** ** Strings *)

(** [s.split(sep)] for a one-character separator: the pieces between the
    occurrences of [sep], in order; never the empty list. *)
Fixpoint py_split (sep : ascii) (s : string) : list string :=
  match s with
  | EmptyString => [""]
  | String c s' =>
      if Ascii.eqb c sep then "" :: py_split sep s'
      else match py_split sep s' with
           | w :: ws => String c w :: ws
           | [] => [String c ""]
           end
  end.

(** [l[i]] on a Python list or on the first axis of an array. *)
Definition py_index {A} (l : list A) (i : nat) : result A :=
  match l !! i with
  | Some a => Return a
  | None => Raise IndexError
  end.


(** The suffix of a path: the text from its last ['.'] on, empty when the
    path has no ['.']. *)
Definition path_suffix (s : string) : string :=
  match reverse (py_split "." s) with
  | ext :: _ :: _ => "." +:+ ext
  | _ => ""
  end.

(** The text of a path before its first ['.']. *)
Fixpoint before_first_dot (s : string) : string :=
  match s with
  | EmptyString => ""
  | String c s' => if Ascii.eqb c "." then "" else String c (before_first_dot s')
  end.

(** The last component of a path, and a text without its leading or
    its trailing dots. *)
Definition last_component (s : string) : string :=
  default "" (last (py_split "/" s)).

Fixpoint lstrip_dots (s : string) : string :=
  match s with
  | String c s' => if Ascii.eqb c "." then lstrip_dots s' else s
  | EmptyString => ""
  end.

Fixpoint rstrip_dots (s : string) : string :=
  match s with
  | EmptyString => ""
  | String c s' =>
      match rstrip_dots s' with
      | EmptyString => if Ascii.eqb c "." then "" else String c ""
      | r => String c r
      end
  end.

(** [os.path.splitext(name)[1][1:]]: the text after the last dot of the
    last component, where the dots that begin the component do not
    count; empty when there is no such dot. *)
Definition path_format (name : string) : string :=
  match reverse (py_split "." (lstrip_dots (last_component name))) with
  | fmt :: _ :: _ => fmt
  | _ => ""
  end.

(** ** Loops *)

(** [for i in range(n): body], threading the variables the body assigns
    through an accumulator; an exception leaves the loop. *)
Fixpoint for_each {S} (idx : list nat) (body : nat → S → result S) (s : S) : result S :=
  match idx with
  | [] => Return s
  | i :: idx' => s' ← body i s; for_each idx' body s'
  end.

Definition for_range {S} (n : nat) (body : nat → S → result S) (s : S) : result S :=
  for_each (seq 0 n) body s.

(** ** numpy arrays *)

Section Arrays.
Context {A : Type}.

(** [np.zeros((n, m))] and [np.zeros((n, m, k))], for a given zero. *)
Definition np_zeros2 (zero : A) (n m : nat) : list (list A) :=
  replicate n (replicate m zero).

Definition np_zeros3 (zero : A) (n m k : nat) : list (list (list A)) :=
  replicate n (np_zeros2 zero m k).

(** [a[i] = v] on one axis: numpy raises out of range. *)
Definition np_set (a : list A) (i : nat) (v : A) : result (list A) :=
  if (i <? length a)%nat then Return (<[i := v]> a) else Raise IndexError.

End Arrays.

(** [a[i][j] = v] *)
Definition np_set2 {A} (a : list (list A)) (i j : nat) (v : A) : result (list (list A)) :=
  row ← py_index a i;
  row' ← np_set row j v;
  np_set a i row'.

(** [a[i][j][k] = v] *)
Definition np_set3 {A} (a : list (list (list A))) (i j k : nat) (v : A)
  : result (list (list (list A))) :=
  plane ← py_index a i;
  plane' ← np_set2 plane j k v;
  np_set a i plane'.

(** [a.flatten()] of a three-dimensional array, in C order (last index
    fastest) and in Fortran order (first index fastest). *)
Definition np_flatten3 {A} (a : list (list (list A))) : list A :=
  concat (concat a).

Definition np_flatten3_F {A} (a : list (list (list A))) : list A :=
  let m := from_option length 0%nat (head a) in
  let p := from_option (fun plane => from_option length 0%nat (head plane)) 0%nat (head a) in
  concat ((fun k =>
    concat ((fun j => omap (fun plane => row ← plane !! j; row !! k) a) <$> seq 0 m))
    <$> seq 0 p).

(** ** The platform

    What the libraries and the system bring and the program does not
    decide: how the toolkit's writer prints a number of an array of a
    given type, as the number a reader gets back from that text; which
    paths can be created or overwritten; whether numpy takes an [order]
    argument that is not a string by its truth value (old releases) or
    rejects it with a type error; and whether a grid that holds no cell
    (the grid of a failed read is one) has a cell array, an empty one,
    or none. *)
Inductive DataType : Type := Float32 | Float64 | Integer.

Class Platform (coord : Type) : Type := {
  vtk_ascii : DataType → coord → coord;
  can_write : string → bool;
  numpy_order_by_truth : bool;
  empty_cell_array : bool
}.

(** ** The toolkit's data, the plotting library's data, and the handler *)

Section VtkHandler.

(** Coordinates are the floating-point numbers of the program; the
    embedding never computes with them, so they stay abstract.  [zero]
    is [0.0], [vtk_float x] is the value the toolkit's point container
    holds once the Python float [x] was inserted into it (it stores
    single precision unless told otherwise). *)
Context {coord : Type} `{!Platform coord}.
Variable zero : coord.
Variable vtk_float : coord → coord.

(** [vtk.VTK_MAJOR_VERSION] *)
Variable VTK_MAJOR_VERSION : nat.

(** [a.flatten(order)] with an integer for [order]. *)
Definition np_flatten3_order {A} (a : list (list (list A))) (order : Z) : result (list A) :=
  if numpy_order_by_truth
  then Return (if decide (order = 0%Z) then np_flatten3 a else np_flatten3_F a)
  else Raise NumpyTypeError.

Definition Point : Type := coord * coord * coord.

(** The attribute arrays of the legacy file format, by the keyword that
    introduces them; [FieldData] is one array of a field. *)
Inductive AttrKind : Type :=
  | Scalars | ColorScalars | Vectors | Normals | TextureCoordinates | Tensors | FieldData.

#[global] Instance AttrKind_eq_dec : EqDecision AttrKind.
Proof. solve_decision. Defined.

(** A data set has one active array for each of these slots; scalars and
    color scalars share one. *)
Definition attr_slot (k : AttrKind) : AttrKind :=
  match k with
  | ColorScalars => Scalars
  | _ => k
  end.

Record Attribute : Type := mkAttribute {
  attr_kind : AttrKind;
  attr_name : string;
  attr_type : DataType;
  attr_values : list (list coord)
}.

(** The data sets of the legacy file format.  The three that carry an
    explicit point array are the point sets. *)
Inductive DataSetKind : Type :=
  | StructuredPoints | RectilinearGrid | StructuredGrid | PolyData | UnstructuredGrid.

#[global] Instance DataSetKind_eq_dec : EqDecision DataSetKind.
Proof. solve_decision. Defined.

Definition is_point_set (k : DataSetKind) : bool :=
  match k with
  | StructuredGrid | PolyData | UnstructuredGrid => true
  | StructuredPoints | RectilinearGrid => false
  end.

Record Cell : Type := mkCell {
  cell_type : nat;
  cell_point_ids : list nat
}.

(** A mesh as the toolkit holds it: its kind, its points, cells that
    refer to points by index, and attribute arrays. *)
Record DataSet : Type := mkDataSet {
  ds_kind : DataSetKind;
  ds_points : list Point;
  ds_cells : list Cell;
  ds_attributes : list Attribute
}.

(** [output.GetScalarRange()] is computed by the toolkit. *)
Variable GetScalarRange : DataSet → coord * coord.

(** One [Poly3DCollection]: its polygons (each a list of vertices, each
    vertex a list of coordinates) and the styling set on it. *)
Record Poly3DCollection : Type := mkPoly {
  poly_verts : list (list (list coord));
  poly_color : option string;
  poly_edgecolor : option string
}.

(** The figure with its 3D axes: the collections added so far and the
    data handed to [auto_scale_xyz]. *)
Record Figure : Type := mkFigure {
  fig_collections : list Poly3DCollection;
  fig_scale : option (list coord * list coord * list coord)
}.

(** The rendering pipeline of [show]. *)
Record Mapper : Type := mkMapper {
  mapper_input : option DataSet;
  mapper_scalar_range : option (coord * coord)
}.

Record Actor : Type := mkActor { actor_mapper : option Mapper }.

Record Renderer : Type := mkRenderer {
  ren_actors : list Actor;
  ren_background : Z * Z * Z
}.

Record RenderWindow : Type := mkRenderWindow { win_renderers : list Renderer }.

Record Interactor : Type := mkInteractor {
  iren_window : option RenderWindow;
  iren_initialized : bool
}.

(** What a path holds on disk, and the I/O a call performs: the reads
    and the writes that the libraries were asked for and returned from
    (a write that the toolkit could not do is among them, see
    [writer_Write]), the figures shown and the interactive sessions. *)
Inductive File : Type :=
  | MeshFile (d : DataSet)
  | ImageFile (fig : Figure).

Inductive Event : Type :=
  | FileRead (path : string)
  | FileWritten (path : string)
  | FigureShown (fig : Figure)
  | InteractiveSession (iren : Interactor).

(** The handler object. *)
Record Handler : Type := mkHandler {
  infile : pyobj;
  outfile : pyobj;
  extension : string
}.

(** A disk maps a path, as the program writes it, to what the file
    holds: every file is taken to be reached under one name. *)
Record State : Type := mkState {
  self : Handler;
  disk : gmap string File;
  io_log : list Event
}.

(** ** The monad of the methods *)

Definition M (A : Type) : Type := State → State * result A.

#[global] Instance M_ret : MRet M := fun A a st => (st, Return a).
#[global] Instance M_bind : MBind M := fun A B f m st =>
  match m st with
  | (st', Return a) => f a st'
  | (st', Raise e) => (st', Raise e)
  end.

Definition raise {A} (e : exn) : M A := fun st => (st, Raise e).

(** A computation without side effects. *)
Definition pure {A} (r : result A) : M A := fun st => (st, r).

Definition get_self : M Handler := fun st => (st, Return (self st)).

(** The state after [self.infile = v], after [self.outfile = v], after
    an I/O event, and after a file was put at a path. *)
Definition with_infile (v : pyobj) (st : State) : State :=
  mkState (mkHandler v (outfile (self st)) (extension (self st))) (disk st) (io_log st).

Definition with_outfile (v : pyobj) (st : State) : State :=
  mkState (mkHandler (infile (self st)) v (extension (self st))) (disk st) (io_log st).

Definition with_event (e : Event) (st : State) : State :=
  mkState (self st) (disk st) (io_log st ++ [e]).

Definition with_file (path : string) (f : File) (st : State) : State :=
  mkState (self st) (<[path := f]> (disk st)) (io_log st).

Definition set_infile (v : pyobj) : M unit := fun st => (with_infile v st, Return ()).

Definition set_outfile (v : pyobj) : M unit := fun st => (with_outfile v st, Return ()).

Definition log_event (e : Event) : M unit := fun st => (with_event e st, Return ()).

(** ** The base file handler *)

(** Modelled from the spec: the constructor of the base class
    [pygem.filehandler.FileHandler], which is not part of the sources.
    The handler state is "a record holding the last-used input path and
    last-used output path", null until [parse] and [write] set them. *)
Definition FileHandler_init : Handler :=
  mkHandler PyNone PyNone "".

(** Modelled from the spec: [FileHandler._check_filename_type], not part
    of the sources: it "fails unless path is a string-like value", with
    an invalid-argument error. *)
Definition _check_filename_type (filename : pyobj) : M unit :=
  match filename with
  | PyStr _ => mret ()
  | _ => raise (InvalidArgument NotAString)
  end.

(** Modelled from the spec: [FileHandler._check_extension], not part of
    the sources: it "fails unless path's suffix matches the handler's
    registered extension", with an invalid-argument error. *)
Definition _check_extension (filename : pyobj) : M unit :=
  h ← get_self;
  match filename with
  | PyStr s =>
      if decide (path_suffix s = extension h) then mret ()
      else raise (InvalidArgument WrongExtension)
  | _ => raise (InvalidArgument WrongExtension)
  end.

(** Modelled from the spec: [FileHandler._check_infile_instantiation],
    not part of the sources: it "fails if no input source has been
    recorded yet", with a precondition error. *)
Definition _check_infile_instantiation (value : pyobj) : M unit :=
  match value with
  | PyNone => raise PreconditionError
  | _ => mret ()
  end.

(** [VtkHandler.__init__] *)
Definition VtkHandler_init : Handler :=
  let self := FileHandler_init in
  mkHandler (infile self) (outfile self) ".vtk".

(** ** The toolkit: readers, point container, writer *)

Inductive ReaderClass : Type := DataSetReader | UnstructuredGridReader.

Record Reader : Type := mkReader {
  reader_class : ReaderClass;
  reader_file_name : option string;
  reader_all_vectors : bool;
  reader_all_scalars : bool;
  reader_output : option DataSet
}.

Definition vtkDataSetReader : Reader :=
  mkReader DataSetReader None false false None.

Definition vtkUnstructuredGridReader : Reader :=
  mkReader UnstructuredGridReader None false false None.

(** [reader.SetFileName(name)]: the binding takes a string, or [None]
    for no file name, and rejects anything else. *)
Definition reader_SetFileName (r : Reader) (name : pyobj) : result Reader :=
  match name with
  | PyStr s =>
      Return (mkReader (reader_class r) (Some s) (reader_all_vectors r)
                (reader_all_scalars r) (reader_output r))
  | PyNone =>
      Return (mkReader (reader_class r) None (reader_all_vectors r)
                (reader_all_scalars r) (reader_output r))
  | PyInt _ => Raise ToolkitError
  end.

Definition ReadAllVectorsOn (r : Reader) : Reader :=
  mkReader (reader_class r) (reader_file_name r) true (reader_all_scalars r)
    (reader_output r).

Definition ReadAllScalarsOn (r : Reader) : Reader :=
  mkReader (reader_class r) (reader_file_name r) (reader_all_vectors r) true
    (reader_output r).

(** The attribute arrays a reader loads: the arrays of a field all, of
    the other arrays the first one of each slot only, unless all arrays
    of that kind were asked for; the program asks for all scalar and for
    all vector arrays, and for no others. *)
Definition read_all (all_vectors all_scalars : bool) (k : AttrKind) : bool :=
  match k with
  | Scalars => all_scalars
  | Vectors => all_vectors
  | FieldData => true
  | _ => false
  end.

Fixpoint load_attributes (all_vectors all_scalars : bool) (seen : list AttrKind)
    (attrs : list Attribute) : list Attribute :=
  match attrs with
  | [] => []
  | a :: attrs' =>
      let rest :=
        load_attributes all_vectors all_scalars (attr_slot (attr_kind a) :: seen) attrs' in
      if read_all all_vectors all_scalars (attr_kind a)
         || negb (bool_decide (attr_slot (attr_kind a) ∈ seen))
      then a :: rest
      else rest
  end.

Definition load (r : Reader) (d : DataSet) : DataSet :=
  mkDataSet (ds_kind d) (ds_points d) (ds_cells d)
    (load_attributes (reader_all_vectors r) (reader_all_scalars r) [] (ds_attributes d)).

(** A reader of the generic class reads every kind of data set, a reader
    of unstructured grids that kind only. *)
Definition reads (c : ReaderClass) (d : DataSet) : bool :=
  match c with
  | DataSetReader => true
  | UnstructuredGridReader => bool_decide (ds_kind d = UnstructuredGrid)
  end.

(** After a read that failed (no file name, no such file, not a mesh, a
    mesh of a kind the reader does not read) the toolkit reports the
    error on its own channel and raises nothing: the generic reader then
    has no output, the reader of unstructured grids has an empty grid. *)
Definition empty_grid : DataSet := mkDataSet UnstructuredGrid [] [] [].

Definition failed_output (c : ReaderClass) : option DataSet :=
  match c with
  | DataSetReader => None
  | UnstructuredGridReader => Some empty_grid
  end.

Definition with_output (r : Reader) (o : option DataSet) : Reader :=
  mkReader (reader_class r) (reader_file_name r) (reader_all_vectors r)
    (reader_all_scalars r) o.

(** [reader.Update()]: the read of the file. *)
Definition reader_Update (r : Reader) : M Reader :=
  match reader_file_name r with
  | None => fun st => (st, Return (with_output r (failed_output (reader_class r))))
  | Some path =>
      fun st =>
        let st := with_event (FileRead path) st in
        match disk st !! path with
        | Some (MeshFile d) =>
            if reads (reader_class r) d
            then (st, Return (with_output r (Some (load r d))))
            else (st, Return (with_output r (failed_output (reader_class r))))
        | _ => (st, Return (with_output r (failed_output (reader_class r))))
        end
  end.

(** [reader.GetOutput()]; when the reader has no output this is [None],
    and the first method called on it raises. *)
Definition GetOutput (r : Reader) : result DataSet :=
  match reader_output r with
  | Some d => Return d
  | None => Raise ToolkitError
  end.

Definition GetNumberOfPoints (data : DataSet) : nat := length (ds_points data).

(** [points.GetPoint(i)] and [data.GetPoint(i)]; an index the container
    does not have is a toolkit failure. *)
Definition points_GetPoint (points : list Point) (i : nat) : result Point :=
  match points !! i with
  | Some p => Return p
  | None => Raise ToolkitError
  end.

Definition GetPoint (data : DataSet) (i : nat) : result Point :=
  points_GetPoint (ds_points data) i.

Definition GetPoints (data : DataSet) : list Point := ds_points data.

(** [data.GetCells()]: where a grid without cells (the empty grid of a
    failed read among them) has no cell array, this is [None], and the
    method called on it raises. *)
Definition has_cell_array (data : DataSet) : bool :=
  match ds_cells data with
  | [] => empty_cell_array
  | _ => true
  end.

Definition GetCells (data : DataSet) : result (list Cell) :=
  if has_cell_array data then Return (ds_cells data) else Raise ToolkitError.

Definition GetNumberOfCells (cells : list Cell) : nat := length cells.

Definition GetCell (data : DataSet) (i : nat) : result Cell :=
  match ds_cells data !! i with
  | Some c => Return c
  | None => Raise ToolkitError
  end.

(** [cell.GetPointId(j)]; a position the cell does not have is a toolkit
    failure. *)
Definition GetPointId (c : Cell) (j : nat) : result nat :=
  match cell_point_ids c !! j with
  | Some id => Return id
  | None => Raise ToolkitError
  end.

(** [vtk.vtkPoints()] and [points.InsertNextPoint(row)]: the row has to
    be three numbers, which the container stores in its own precision. *)
Definition vtkPoints : list Point := [].

Definition vtk_point (row : list coord) : result Point :=
  match row with
  | [x; y; z] => Return (vtk_float x, vtk_float y, vtk_float z)
  | _ => Raise ToolkitError
  end.

Definition InsertNextPoint (points : list Point) (row : list coord) : result (list Point) :=
  p ← vtk_point row;
  Return (points ++ [p]).

(** [data.SetPoints(points)]: a method of the point sets; the other data
    sets do not have it. *)
Definition SetPoints (data : DataSet) (points : list Point) : result DataSet :=
  if is_point_set (ds_kind data)
  then Return (mkDataSet (ds_kind data) points (ds_cells data) (ds_attributes data))
  else Raise ToolkitError.

Record Writer : Type := mkWriter {
  writer_file_name : option string;
  writer_input : option DataSet
}.

Definition vtkDataSetWriter : Writer := mkWriter None None.

Definition writer_SetFileName (w : Writer) (name : pyobj) : result Writer :=
  match name with
  | PyStr s => Return (mkWriter (Some s) (writer_input w))
  | PyNone => Return (mkWriter None (writer_input w))
  | PyInt _ => Raise ToolkitError
  end.

(** [writer.SetInput(data)] exists up to version 5 of the toolkit,
    [writer.SetInputData(data)] from version 6 on. *)
Definition writer_SetInput (w : Writer) (data : DataSet) : result Writer :=
  if decide (VTK_MAJOR_VERSION ≤ 5)%nat
  then Return (mkWriter (writer_file_name w) (Some data))
  else Raise ToolkitError.

Definition writer_SetInputData (w : Writer) (data : DataSet) : result Writer :=
  if decide (VTK_MAJOR_VERSION ≤ 5)%nat
  then Raise ToolkitError
  else Return (mkWriter (writer_file_name w) (Some data)).

(** The data set a reader gets back from the text the writer prints:
    the kind and the cells as they are, the numbers as printed.  The
    point array this program hands to the writer is the single precision
    array of [vtk.vtkPoints()].  Of the attribute arrays the writer
    prints the active ones (the first of each slot) under their own
    keyword, and after them all the others as the arrays of one field. *)
Definition written_point (p : Point) : Point :=
  let '(x, y, z) := p in
  (vtk_ascii Float32 x, vtk_ascii Float32 y, vtk_ascii Float32 z).

Definition printed_values (a : Attribute) : list (list coord) :=
  fmap (M := list) (vtk_ascii (attr_type a)) <$> attr_values a.

Definition written_attribute (k : AttrKind) (a : Attribute) : Attribute :=
  mkAttribute k (attr_name a) (attr_type a) (printed_values a).

Definition is_active (seen : list AttrKind) (a : Attribute) : bool :=
  negb (bool_decide (attr_kind a = FieldData))
  && negb (bool_decide (attr_slot (attr_kind a) ∈ seen)).

Fixpoint split_active (seen : list AttrKind) (attrs : list Attribute)
    : list Attribute * list Attribute :=
  match attrs with
  | [] => ([], [])
  | a :: attrs' =>
      let '(active, others) := split_active (attr_slot (attr_kind a) :: seen) attrs' in
      if is_active seen a then (a :: active, others) else (active, a :: others)
  end.

Definition written_attributes (attrs : list Attribute) : list Attribute :=
  let '(active, others) := split_active [] attrs in
  ((fun a => written_attribute (attr_kind a) a) <$> active)
  ++ (written_attribute FieldData <$> others).

Definition written (data : DataSet) : DataSet :=
  mkDataSet (ds_kind data) (written_point <$> ds_points data) (ds_cells data)
    (written_attributes (ds_attributes data)).

(** [writer.Write()]: the file at the writer's path becomes the mesh as
    printed.  On a path that cannot be written the toolkit reports the
    error on its own channel, writes nothing and raises nothing: the
    call returns all the same. *)
Definition writer_Write (w : Writer) : M unit :=
  match writer_file_name w, writer_input w with
  | Some path, Some data =>
      fun st =>
        (with_event (FileWritten path)
           (if can_write path then with_file path (MeshFile (written data)) st else st),
         Return ())
  | _, _ => raise ToolkitError
  end.

(** ** The plotting library *)

(** [plt.figure()] with [a3.Axes3D(figure)]: the axes belong to the
    figure, so what is added to the axes is part of the figure. *)
Definition plt_figure : Figure := mkFigure [] None.

Definition Axes3D (figure : Figure) : Figure := figure.

Definition Poly3DCollection_new (verts : list (list (list coord))) : Poly3DCollection :=
  mkPoly verts None None.

Definition set_color (tri : Poly3DCollection) (c : string) : Poly3DCollection :=
  mkPoly (poly_verts tri) (Some c) (poly_edgecolor tri).

Definition set_edgecolor (tri : Poly3DCollection) (c : string) : Poly3DCollection :=
  mkPoly (poly_verts tri) (poly_color tri) (Some c).

Definition add_collection3d (axes : Figure) (tri : Poly3DCollection) : Figure :=
  mkFigure (fig_collections axes ++ [tri]) (fig_scale axes).

Definition auto_scale_xyz (axes : Figure) (X Y Z : list coord) : Figure :=
  mkFigure (fig_collections axes) (Some (X, Y, Z)).

(** [plt.show()] *)
Definition plt_show (figure : Figure) : M unit :=
  log_event (FigureShown figure).

(** [figure.savefig(name)]: the format is taken from the name, and a name
    without format gets the default one appended, after its trailing
    dots.  A path that cannot be written raises. *)
Definition savefig_file (name : string) : string :=
  if decide (path_format name = "") then rstrip_dots name +:+ ".png" else name.

Definition savefig (figure : Figure) (name : string) : M unit := fun st =>
  let file := savefig_file name in
  if can_write file
  then (with_event (FileWritten file) (with_file file (ImageFile figure) st), Return ())
  else (st, Raise ToolkitError).

(** ** The rendering pipeline *)

Definition vtkDataSetMapper : Mapper := mkMapper None None.

Definition mapper_SetInput (m : Mapper) (data : DataSet) : result Mapper :=
  if decide (VTK_MAJOR_VERSION ≤ 5)%nat
  then Return (mkMapper (Some data) (mapper_scalar_range m))
  else Raise ToolkitError.

Definition mapper_SetInputData (m : Mapper) (data : DataSet) : result Mapper :=
  if decide (VTK_MAJOR_VERSION ≤ 5)%nat
  then Raise ToolkitError
  else Return (mkMapper (Some data) (mapper_scalar_range m)).

Definition SetScalarRange (m : Mapper) (range : coord * coord) : Mapper :=
  mkMapper (mapper_input m) (Some range).

Definition vtkActor : Actor := mkActor None.

Definition SetMapper (a : Actor) (m : Mapper) : Actor := mkActor (Some m).

(** A new renderer has a black background. *)
Definition vtkRenderer : Renderer := mkRenderer [] (0, 0, 0)%Z.

Definition AddActor (r : Renderer) (a : Actor) : Renderer :=
  mkRenderer (ren_actors r ++ [a]) (ren_background r).

Definition SetBackground (r : Renderer) (red green blue : Z) : Renderer :=
  mkRenderer (ren_actors r) (red, green, blue).

Definition vtkRenderWindow : RenderWindow := mkRenderWindow [].

Definition AddRenderer (w : RenderWindow) (r : Renderer) : RenderWindow :=
  mkRenderWindow (win_renderers w ++ [r]).

Definition vtkRenderWindowInteractor : Interactor := mkInteractor None false.

Definition SetRenderWindow (i : Interactor) (w : RenderWindow) : Interactor :=
  mkInteractor (Some w) (iren_initialized i).

Definition Initialize (i : Interactor) : Interactor :=
  mkInteractor (iren_window i) true.

(** [interactor.Start()]: the interactive session, until the user closes
    the window. *)
Definition interactor_Start (i : Interactor) : M unit :=
  log_event (InteractiveSession i).

(** ** [VtkHandler.parse] *)

Definition parse (filename : pyobj) : M (list (list coord)) :=
  _check_filename_type filename;;
  _check_extension filename;;
  set_infile filename;;
  let reader := vtkDataSetReader in
  self ← get_self;
  reader ← pure (reader_SetFileName reader (infile self));
  let reader := ReadAllVectorsOn reader in
  let reader := ReadAllScalarsOn reader in
  reader ← reader_Update reader;
  data ← pure (GetOutput reader);
  let n_points := GetNumberOfPoints data in
  let mesh_points := np_zeros2 zero n_points 3 in
  mesh_points ← pure (for_range n_points (fun i mesh_points =>
      '(x, y, z) ← GetPoint data i;
      mesh_points ← np_set2 mesh_points i 0 x;
      mesh_points ← np_set2 mesh_points i 1 y;
      np_set2 mesh_points i 2 z) mesh_points);
  mret mesh_points.

(** ** [VtkHandler.write] *)

Definition write (mesh_points : list (list coord)) (filename : pyobj) : M unit :=
  _check_filename_type filename;;
  _check_extension filename;;
  self ← get_self;
  _check_infile_instantiation (infile self);;
  set_outfile filename;;
  let reader := vtkDataSetReader in
  self ← get_self;
  reader ← pure (reader_SetFileName reader (infile self));
  let reader := ReadAllVectorsOn reader in
  let reader := ReadAllScalarsOn reader in
  reader ← reader_Update reader;
  data ← pure (GetOutput reader);
  let points := vtkPoints in
  points ← pure (for_range (GetNumberOfPoints data) (fun i points =>
      row ← py_index mesh_points i;
      InsertNextPoint points row) points);
  data ← pure (SetPoints data points);
  let writer := vtkDataSetWriter in
  self ← get_self;
  writer ← pure (writer_SetFileName writer (outfile self));
  writer ← pure (if decide (VTK_MAJOR_VERSION ≤ 5)%nat
                 then writer_SetInput writer data
                 else writer_SetInputData writer data);
  writer_Write writer.

(** ** [VtkHandler.plot] *)

(** The vertices of triangle [i]: rows [0..2] of [vtx[i]] are set to the
    points whose indices are in row [i] of [cells]. *)
Definition plot_vertices (points : list Point) (cells : list (list nat)) (i : nat)
    (vtx : list (list (list coord))) : result (list (list (list coord))) :=
  for_range 3 (fun j vtx =>
      row ← py_index cells i;
      id ← py_index row j;
      '(x, y, z) ← points_GetPoint points id;
      vtx ← np_set3 vtx i j 0 x;
      vtx ← np_set3 vtx i j 1 y;
      np_set3 vtx i j 2 z) vtx.

(** The figure of [plot], built from the mesh that was read (the
    statements of [plot] between the read and the display).  [cells] is
    a float array in the source: the point indices are stored as floats
    and read back through [int()], which is exact below 2^53; the
    embedding keeps the indices as they are. *)
Definition plot_figure (data : DataSet) : result Figure :=
  let points := GetPoints data in
  cell_array ← GetCells data;
  let ncells := GetNumberOfCells cell_array in
  let cells := np_zeros2 0%nat ncells 3 in
  cells ← for_range ncells (fun i cells =>
      for_range 3 (fun j cells =>
          cell ← GetCell data i;
          id ← GetPointId cell j;
          np_set2 cells i j id) cells) cells;
  let figure := plt_figure in
  let axes := Axes3D figure in
  let vtx := np_zeros3 zero ncells 3 3 in
  '(vtx, axes) ← for_range ncells (fun i '(vtx, axes) =>
      vtx ← plot_vertices points cells i vtx;
      vtx_i ← py_index vtx i;
      let tri := Poly3DCollection_new [vtx_i] in
      let tri := set_color tri "b" in
      let tri := set_edgecolor tri "k" in
      let axes := add_collection3d axes tri in
      Return (vtx, axes)) (vtx, axes);
  scale ← np_flatten3_order vtx (-1);
  let axes := auto_scale_xyz axes scale scale scale in
  Return axes.

Definition plot (plot_file : pyobj) (save_fig : bool) : M unit :=
  plot_file ← match plot_file with
              | PyNone => self ← get_self; mret (infile self)
              | _ => _check_filename_type plot_file;; mret plot_file
              end;
  let reader := vtkUnstructuredGridReader in
  reader ← pure (reader_SetFileName reader plot_file);
  reader ← reader_Update reader;
  data ← pure (GetOutput reader);
  figure ← pure (plot_figure data);
  if negb save_fig then plt_show figure
  else
    match plot_file with
    | PyStr s =>
        base ← pure (py_index (py_split "." s) 0);
        savefig figure (base +:+ ".png")
    | _ => raise ToolkitError
    end.

(** ** [VtkHandler.show] *)

Definition show (show_file : pyobj) : M unit :=
  show_file ← match show_file with
              | PyNone => self ← get_self; mret (infile self)
              | _ => _check_filename_type show_file;; mret show_file
              end;
  let reader := vtkUnstructuredGridReader in
  reader ← pure (reader_SetFileName reader show_file);
  reader ← reader_Update reader;
  output ← pure (GetOutput reader);
  let scalar_range := GetScalarRange output in
  let mapper := vtkDataSetMapper in
  mapper ← pure (if decide (VTK_MAJOR_VERSION ≤ 5)%nat
                 then mapper_SetInput mapper output
                 else mapper_SetInputData mapper output);
  let mapper := SetScalarRange mapper scalar_range in
  let actor := vtkActor in
  let actor := SetMapper actor mapper in
  let renderer := vtkRenderer in
  let renderer := AddActor renderer actor in
  let renderer := SetBackground renderer 20 20 20 in
  let renderer_window := vtkRenderWindow in
  let renderer_window := AddRenderer renderer_window renderer in
  let interactor := vtkRenderWindowInteractor in
  let interactor := SetRenderWindow interactor renderer_window in
  let interactor := Initialize interactor in
  interactor_Start interactor.

(** ** Sequences of calls on one handler *)

Inductive call : Type :=
  | CallParse (filename : pyobj)
  | CallWrite (mesh_points : list (list coord)) (filename : pyobj)
  | CallPlot (plot_file : pyobj) (save_fig : bool)
  | CallShow (show_file : pyobj).

Definition is_parse (c : call) : bool :=
  match c with CallParse _ => true | _ => false end.

(** The state after a call; the caller may catch what it raises. *)
Definition run_call (st : State) (c : call) : State :=
  match c with
  | CallParse filename => fst (parse filename st)
  | CallWrite mesh_points filename => fst (write mesh_points filename st)
  | CallPlot plot_file save_fig => fst (plot plot_file save_fig st)
  | CallShow show_file => fst (show show_file st)
  end.

Definition run_calls (st : State) (cs : list call) : State :=
  fold_left run_call cs st.

(** A handler as constructed, on a given disk. *)
Definition fresh_state (d : gmap string File) : State :=
  mkState VtkHandler_init d [].

(** ** Vocabulary of the properties *)

(** A point as a row of a coordinate table. *)
Definition row_of_point (p : Point) : list coord :=
  let '(x, y, z) := p in [x; y; z].

(** A table as the toolkit's point container holds it. *)
Definition vtk_table (t : list (list coord)) : list (list coord) :=
  fmap (M := list) vtk_float <$> t.

(** A table as [write] leaves it in a file: every number as the point
    container holds it, then as the writer prints it. *)
Definition written_table (t : list (list coord)) : list (list coord) :=
  fmap (M := list) (fun x => vtk_ascii Float32 (vtk_float x)) <$> t.

(** The mesh [write] leaves in a file, for the mesh [d] of the input file
    and the points copied from the table: the data set that the reader
    with both switches on made of [d], with the new points, as printed. *)
Definition write_output (d : DataSet) (points : list Point) : DataSet :=
  written (mkDataSet (ds_kind d) points (ds_cells d)
             (load_attributes true true [] (ds_attributes d))).



(** The file in which [plot] saves the figure of a path. *)
Definition saved_image (s : string) : string :=
  savefig_file (before_first_dot s +:+ ".png").

(** A table of three columns. *)
Definition three_columns (t : list (list coord)) : Prop :=
  Forall (fun row => length row = 3%nat) t.

(** The grid that a reader of unstructured grids, as [plot] and [show]
    set it up, has as output after the read of a path. *)
Definition read_grid (st : State) (s : string) : DataSet :=
  match disk st !! s with
  | Some (MeshFile d) =>
      if reads UnstructuredGridReader d then load vtkUnstructuredGridReader d
      else empty_grid
  | _ => empty_grid
  end.

(** The path [plot] and [show] work on: the argument, or the handler's
    input file when the argument is [None]. *)
Definition displayed_path (arg : pyobj) (st : State) : pyobj :=
  match arg with
  | PyNone => infile (self st)
  | _ => arg
  end.

(** The triangle [plot] is meant to draw for a cell: the points named by
    the first three point indices of the cell, whatever its type and
    whatever indices follow, in blue with black edges. *)
Definition triangle (points : list Point) (c : Cell) : option Poly3DCollection :=
  match cell_point_ids c with
  | a :: b :: c :: _ =>
      pa ← points !! a;
      pb ← points !! b;
      pc ← points !! c;
      Some (mkPoly [[row_of_point pa; row_of_point pb; row_of_point pc]]
              (Some "b") (Some "k"))
  | _ => None
  end.

(** What the two loops of [plot_figure] do for one cell: the three point
    indices read from it, and the vertex array made of them. *)
Definition cell_ids3 (c : Cell) : result (list nat) :=
  a ← GetPointId c 0;
  b ← GetPointId c 1;
  c ← GetPointId c 2;
  Return [a; b; c].

Definition triangle_vertices (points : list Point) (ids : list nat)
    : result (list (list coord)) :=
  a ← py_index ids 0;
  pa ← points_GetPoint points a;
  b ← py_index ids 1;
  pb ← points_GetPoint points b;
  c ← py_index ids 2;
  pc ← points_GetPoint points c;
  Return [row_of_point pa; row_of_point pb; row_of_point pc].

Definition blue_triangle (verts : list (list coord)) : Poly3DCollection :=
  mkPoly [verts] (Some "b") (Some "k").

(** The colour white in the toolkit's normalized convention, and the
    colours of that convention: every channel between 0 and 1. *)
Definition white : Z * Z * Z := (1, 1, 1)%Z.

Definition normalized (c : Z * Z * Z) : Prop :=
  let '(r, g, b) := c in
  let '(wr, wg, wb) := white in
  (0 ≤ r ≤ wr ∧ 0 ≤ g ≤ wg ∧ 0 ≤ b ≤ wb)%Z.

End VtkHandler.

(** Mapping a fallible function over a list, left to right. *)
Fixpoint mapR {A B} (f : A → result B) (l : list A) : result (list B) :=
  match l with
  | [] => Return []
  | a :: l' => b ← f a; bs ← mapR f l'; Return (b :: bs)
  end.


(** ** A small mesh on disk

    Four points and two triangles, with integer coordinates.  The point
    container is taken to keep multiples of four, the writer to print a
    single precision number as a multiple of eight and a double
    precision number as a multiple of two; the paths under "/readonly/"
    cannot be written; numpy is an old release, which takes the order
    of [flatten] by its truth value, and the toolkit one in which a grid
    without cells has no cell array. *)
Module Example.

Definition store (x : Z) : Z := (4 * (x / 4))%Z.

Definition ascii (ty : DataType) (x : Z) : Z :=
  match ty with
  | Float32 => (8 * (x / 8))%Z
  | Float64 => (2 * (x / 2))%Z
  | Integer => x
  end.

#[global] Instance platform : Platform Z := {|
  vtk_ascii := ascii;
  can_write := fun path => negb (String.prefix "/readonly/" path);
  numpy_order_by_truth := true;
  empty_cell_array := false
|}.

Definition scalar_range (d : @DataSet Z) : Z * Z := (0, 0)%Z.

Definition version : nat := 6.

Definition mesh : @DataSet Z :=
  mkDataSet UnstructuredGrid [(0, 0, 0); (9, 0, 1); (0, 10, 2); (9, 10, 7)]%Z
    [mkCell 5 [0; 1; 2]; mkCell 5 [1; 3; 2]]%nat
    [mkAttribute Scalars "pressure" Float64 [[1]; [2]; [3]; [4]]%Z;
     mkAttribute Normals "n1" Float32 [[0; 0; 8]; [0; 0; 8]; [0; 0; 8]; [0; 0; 8]]%Z;
     mkAttribute Scalars "heat" Float64 [[5]; [6]; [7]; [8]]%Z;
     mkAttribute Normals "n2" Float32 [[8; 0; 0]; [8; 0; 0]; [8; 0; 0]; [8; 0; 0]]%Z].

(** A data set of structured points: it has points, and no method to
    set them. *)
Definition image : @DataSet Z :=
  mkDataSet StructuredPoints [(0, 0, 0); (8, 0, 0)]%Z [] [].

(** An unstructured grid with a triangle and a line. *)
Definition wire : @DataSet Z :=
  mkDataSet UnstructuredGrid [(0, 0, 0); (8, 0, 0); (0, 8, 0)]%Z
    [mkCell 5 [0; 1; 2]; mkCell 3 [0; 1]]%nat [].

Definition table : list (list Z) :=
  [[0; 0; 0]; [9; 0; 1]; [0; 10; 2]; [9; 10; 7]]%Z.

Definition moved : list (list Z) :=
  [[1; 0; 0]; [10; 0; 1]; [1; 10; 2]; [10; 10; 7]]%Z.

Definition short : list (list Z) := [[1; 0; 0]; [10; 0; 1]]%Z.

Definition long : list (list Z) := moved ++ [[99; 99; 99]; [7]]%Z.

Definition files : gmap string (@File Z) :=
  {[ "mesh.vtk" := MeshFile mesh; "mesh.stl" := MeshFile mesh;
     "image.vtk" := MeshFile image; "wire.vtk" := MeshFile wire ]}.

Definition fresh : @State Z := fresh_state files.

Definition parsed : @State Z := fst (parse 0%Z (PyStr "mesh.vtk") fresh).

Definition plotted : @State Z := fst (plot 0%Z PyNone true parsed).


(** The same points with a quadrilateral and a pentagon whose first three
    point indices are those of the two triangles of [mesh]. *)
Definition polygons : @DataSet Z :=
  mkDataSet UnstructuredGrid (ds_points mesh)
    [mkCell 9 [0; 1; 2; 3]; mkCell 7 [1; 3; 2; 0; 1]]%nat [].

Definition local : @State Z := fresh_state {[ "./mesh.vtk" := MeshFile mesh ]}.

(** The figure of [plot] for the mesh. *)
Definition figure : @Figure Z :=
  match plot_figure 0%Z mesh with
  | Return figure => figure
  | Raise _ => plt_figure
  end.

(** Another platform: the same numbers and paths, with a numpy that
    rejects the order of [flatten] and a toolkit in which a grid without
    cells has an empty cell array. *)
Definition recent : Platform Z := {|
  vtk_ascii := ascii;
  can_write := fun path => negb (String.prefix "/readonly/" path);
  numpy_order_by_truth := false;
  empty_cell_array := true
|}.

Definition calls_without_parse : list (@call Z) :=
  [CallPlot PyNone false; CallWrite table (PyStr "out.vtk");
   CallShow (PyStr "mesh.vtk"); CallPlot (PyStr "mesh.vtk") true].

End Example.

(** * Properties *)

(** ** Loops and arrays *)

Lemma mapR_pure {A B} (g : A → B) (l : list A) :
  mapR (fun a => Return (g a)) l = Return (g <$> l).
Proof.
  induction l as [|a l IH]; [reflexivity|].
  cbn. rewrite IH. reflexivity.
Qed.

Lemma mapR_Return {A B} (f : A → result B) (l : list A) (bs : list B) :
  mapR f l = Return bs → Forall2 (fun a b => f a = Return b) l bs.
Proof.
  revert bs. induction l as [|a l IH]; intros bs; cbn.
  - intros [= <-]. constructor.
  - destruct (f a) as [b|e] eqn:Hfa; cbn; [|discriminate].
    destruct (mapR f l) as [bs'|e]; cbn; [|discriminate].
    intros [= <-]. constructor; [assumption|]. apply IH. reflexivity.
Qed.

(** Two loop bodies that agree on the indices visited give the same
    loop. *)
Lemma for_each_ext {S} (idx : list nat) (body1 body2 : nat → S → result S) (s : S) :
  (∀ i s', i ∈ idx → body1 i s' = body2 i s') →
  for_each idx body1 s = for_each idx body2 s.
Proof.
  revert s. induction idx as [|i idx IH]; intros s Hext; [reflexivity|].
  cbn. rewrite Hext by (left; reflexivity).
  destruct (body2 i s) as [s'|e]; cbn; [|reflexivity].
  apply IH. intros j s'' Hj. apply Hext. right. exact Hj.
Qed.

Lemma py_index_app_r {A} (l1 l2 : list A) (x : A) :
  py_index (l1 ++ x :: l2) (length l1) = Return x.
Proof.
  unfold py_index. rewrite list_lookup_middle by reflexivity. reflexivity.
Qed.

Lemma np_set_app_r {A} (l1 l2 : list A) (x v : A) :
  np_set (l1 ++ x :: l2) (length l1) v = Return (l1 ++ v :: l2).
Proof.
  unfold np_set.
  replace (length l1 <? length (l1 ++ x :: l2))%nat with true.
  - rewrite insert_app_r_alt by lia. rewrite Nat.sub_diag. reflexivity.
  - symmetry. apply Nat.ltb_lt. rewrite length_app. cbn. lia.
Qed.

(** [a[i][j] = v] touches row [i] only. *)
Lemma np_set2_row {A} (done rest : list (list A)) (row : list A) (j : nat) (v : A) :
  np_set2 (done ++ row :: rest) (length done) j v
  = (row' ← np_set row j v; Return (done ++ row' :: rest)).
Proof.
  unfold np_set2. rewrite py_index_app_r. cbn.
  destruct (np_set row j v) as [row'|e]; cbn; [|reflexivity].
  apply np_set_app_r.
Qed.

Lemma np_set3_plane {A} (done rest : list (list (list A))) (plane : list (list A))
    (j k : nat) (v : A) :
  np_set3 (done ++ plane :: rest) (length done) j k v
  = (plane' ← np_set2 plane j k v; Return (done ++ plane' :: rest)).
Proof.
  unfold np_set3. rewrite py_index_app_r. cbn.
  destruct (np_set2 plane j k v) as [plane'|e]; cbn; [|reflexivity].
  apply np_set_app_r.
Qed.

(** A loop that fills row [i] of a zeroed array at step [i], from the
    [i]-th element of [xs], computes [mapR] over [xs]. *)
Lemma for_each_rows {A R} (f : A → result R) (z : R)
    (body : nat → list R → result (list R)) (xs : list A) :
  ∀ (k : nat) (done : list R),
    length done = k →
    (∀ i x done' rest, xs !! (i - k)%nat = Some x → (k ≤ i)%nat → length done' = i →
       body i (done' ++ z :: rest) = (v ← f x; Return (done' ++ v :: rest))) →
    for_each (seq k (length xs)) body (done ++ replicate (length xs) z)
    = (vs ← mapR f xs; Return (done ++ vs)).
Proof.
  induction xs as [|x xs IH]; intros k done Hlen Hbody.
  - cbn. rewrite !app_nil_r. reflexivity.
  - cbn [length seq replicate for_each mapR].
    rewrite (Hbody k x done (replicate (length xs) z)); [| |lia|assumption].
    2:{ rewrite Nat.sub_diag. reflexivity. }
    destruct (f x) as [v|e]; cbn; [|reflexivity].
    replace (done ++ v :: replicate (length xs) z)
      with ((done ++ [v]) ++ replicate (length xs) z)
      by (rewrite <- app_assoc; reflexivity).
    rewrite (IH (S k) (done ++ [v])).
    + destruct (mapR f xs) as [vs|e]; cbn; [|reflexivity].
      rewrite <- app_assoc. reflexivity.
    + rewrite length_app. cbn. lia.
    + intros i y done' rest Hy Hi Hlen'.
      apply Hbody; [|lia|assumption].
      replace (i - k)%nat with (S (i - S k)) by lia. exact Hy.
Qed.

(** The same with a second loop variable that collects what was filled
    in. *)
Lemma for_each_rows_acc {A R C} (f : A → result R) (z : R) (g : C → R → C)
    (body : nat → list R * C → result (list R * C)) (xs : list A) :
  ∀ (k : nat) (done : list R) (c : C),
    length done = k →
    (∀ i x done' rest c', xs !! (i - k)%nat = Some x → (k ≤ i)%nat → length done' = i →
       body i (done' ++ z :: rest, c') = (v ← f x; Return (done' ++ v :: rest, g c' v))) →
    for_each (seq k (length xs)) body (done ++ replicate (length xs) z, c)
    = (vs ← mapR f xs; Return (done ++ vs, foldl g c vs)).
Proof.
  induction xs as [|x xs IH]; intros k done c Hlen Hbody.
  - cbn. rewrite !app_nil_r. reflexivity.
  - cbn [length seq replicate for_each mapR].
    rewrite (Hbody k x done (replicate (length xs) z)); [| |lia|assumption].
    2:{ rewrite Nat.sub_diag. reflexivity. }
    destruct (f x) as [v|e]; cbn; [|reflexivity].
    replace (done ++ v :: replicate (length xs) z)
      with ((done ++ [v]) ++ replicate (length xs) z)
      by (rewrite <- app_assoc; reflexivity).
    rewrite (IH (S k) (done ++ [v])).
    + destruct (mapR f xs) as [vs|e]; cbn; [|reflexivity].
      rewrite <- app_assoc. reflexivity.
    + rewrite length_app. cbn. lia.
    + intros i y done' rest c' Hy Hi Hlen'.
      apply Hbody; [|lia|assumption].
      replace (i - k)%nat with (S (i - S k)) by lia. exact Hy.
Qed.

Lemma mapR_length {A B} (f : A → result B) (l : list A) (bs : list B) :
  mapR f l = Return bs → length bs = length l.
Proof.
  intros H. apply mapR_Return in H. symmetry. exact (Forall2_length _ _ _ H).
Qed.

(** A loop that appends one value per index computes [mapR] over the
    indices. *)
Lemma for_each_append {A} (f : nat → result A) (idx : list nat) : ∀ acc : list A,
  for_each idx (fun i acc => v ← f i; Return (acc ++ [v])) acc
  = (vs ← mapR f idx; Return (acc ++ vs)).
Proof.
  induction idx as [|i idx IH]; intros acc; cbn.
  - rewrite app_nil_r. reflexivity.
  - destruct (f i) as [v|e]; cbn; [|reflexivity].
    rewrite IH. destruct (mapR f idx) as [vs|e]; cbn; [|reflexivity].
    rewrite <- app_assoc. reflexivity.
Qed.

(** Indexing [t] at [k, k+1, ..] while the indices stay inside [t] is a
    walk over the elements of [t]. *)
Lemma mapR_seq_index {A B} (g : A → result B) (t : list A) : ∀ (m k : nat),
  (k + m ≤ length t)%nat →
  mapR (fun i => x ← py_index t i; g x) (seq k m) = mapR g (take m (drop k t)).
Proof.
  induction m as [|m IH]; intros k Hk; [reflexivity|].
  destruct (lookup_lt_is_Some_2 t k) as [x Hx]; [lia|].
  assert (py_index t k = Return x) as Hk' by (unfold py_index; rewrite Hx; reflexivity).
  rewrite (drop_S _ _ _ Hx). cbn [seq mapR take].
  rewrite Hk', IH by lia. reflexivity.
Qed.

(** Once the indices leave [t], the walk stops with an index error,
    provided the elements before did not fail. *)
Lemma mapR_seq_index_short {A B} (g : A → result B) (t : list A) : ∀ (m k : nat),
  Forall (fun x => is_raise (g x) = false) t →
  (k ≤ length t < k + m)%nat →
  mapR (fun i => x ← py_index t i; g x) (seq k m) = Raise IndexError.
Proof.
  induction m as [|m IH]; intros k Hg Hk; [lia|].
  cbn [seq mapR].
  destruct (t !! k) as [x|] eqn:Hx.
  - assert (py_index t k = Return x) as -> by (unfold py_index; rewrite Hx; reflexivity).
    pose proof (lookup_lt_Some _ _ _ Hx) as Hlt.
    pose proof (proj1 (Forall_lookup _ _) Hg _ _ Hx) as Hgx.
    cbn beta in Hgx.
    destruct (g x) as [v|e] eqn:Hv; [|discriminate Hgx].
    rewrite IH by (try assumption; lia).
    cbn. rewrite Hv. reflexivity.
  - assert (py_index t k = Raise IndexError) as ->
      by (unfold py_index; rewrite Hx; reflexivity).
    reflexivity.
Qed.

Lemma mapR_seq_index_Return {A B} (g : A → result B) (t : list A) (ys : list B) :
  ∀ (m k : nat),
  mapR (fun i => x ← py_index t i; g x) (seq k m) = Return ys →
  (m = 0 ∨ k + m ≤ length t)%nat.
Proof.
  intros m. revert ys. induction m as [|m IH]; intros ys k H; [left; reflexivity|].
  right. cbn [seq mapR] in H.
  destruct (t !! k) as [x|] eqn:Hx.
  - pose proof (lookup_lt_Some _ _ _ Hx) as Hlt.
    destruct (mapR _ (seq (S k) m)) as [ys'|e] eqn:Hrest.
    + destruct (IH _ _ Hrest); lia.
    + destruct (py_index t k ≫= g); discriminate H.
  - unfold py_index in H. rewrite Hx in H. discriminate H.
Qed.

(** ** File names *)

Lemma py_split_head (s : string) :
  py_index (py_split "." s) 0 = Return (before_first_dot s).
Proof.
  induction s as [|c s IH]; [reflexivity|].
  cbn [py_split before_first_dot].
  destruct (Ascii.eqb c ".") eqn:Hc; [reflexivity|].
  destruct (py_split "." s) as [|w ws]; [discriminate IH|].
  cbn in IH |- *. injection IH as ->. reflexivity.
Qed.











Section Properties.

Context {coord : Type} `{!Platform coord}.
Variable zero : coord.
Variable vtk_float : coord → coord.
Variable VTK_MAJOR_VERSION : nat.
Variable GetScalarRange : @DataSet coord → coord * coord.

Implicit Types (st : @State coord) (data d : @DataSet coord).
Implicit Types (t mesh_points : list (list coord)) (filename : pyobj).

(** ** The toolkit *)


(** The branch on the toolkit's version always finds the method that
    the installed version has. *)
Lemma writer_attach (w : Writer) data :
  (if decide (VTK_MAJOR_VERSION ≤ 5)%nat
   then writer_SetInput VTK_MAJOR_VERSION w data
   else writer_SetInputData VTK_MAJOR_VERSION w data)
  = Return (mkWriter (writer_file_name w) (Some data)).
Proof.
  unfold writer_SetInput, writer_SetInputData.
  destruct (decide (VTK_MAJOR_VERSION ≤ 5)%nat); reflexivity.
Qed.

Lemma mapper_attach (m : Mapper) data :
  (if decide (VTK_MAJOR_VERSION ≤ 5)%nat
   then mapper_SetInput VTK_MAJOR_VERSION m data
   else mapper_SetInputData VTK_MAJOR_VERSION m data)
  = Return (mkMapper (Some data) (mapper_scalar_range m)).
Proof.
  unfold mapper_SetInput, mapper_SetInputData.
  destruct (decide (VTK_MAJOR_VERSION ≤ 5)%nat); reflexivity.
Qed.

(** ** The loop of [parse] *)

Lemma parse_loop data :
  for_range (GetNumberOfPoints data) (fun i mesh_points =>
      '(x, y, z) ← GetPoint data i;
      mesh_points ← np_set2 mesh_points i 0 x;
      mesh_points ← np_set2 mesh_points i 1 y;
      np_set2 mesh_points i 2 z)
    (np_zeros2 zero (GetNumberOfPoints data) 3)
  = Return (row_of_point <$> ds_points data).
Proof.
  unfold for_range, np_zeros2, GetNumberOfPoints.
  etrans.
  { apply (for_each_rows (fun p : Point => Return (row_of_point p))
             (replicate 3 zero) _ (ds_points data) 0%nat [] eq_refl).
    intros i [[x y] z] done' rest Hi _ Hlen.
    rewrite Nat.sub_0_r in Hi. unfold GetPoint, points_GetPoint.
    rewrite Hi. subst i. cbn.
    rewrite np_set2_row. cbn.
    rewrite np_set2_row. cbn.
    rewrite np_set2_row. cbn.
    reflexivity. }
  rewrite mapR_pure. reflexivity.
Qed.

(** ** The loop of [write] *)

Lemma vtk_point_row (row : list coord) :
  length row = 3%nat →
  ∃ p, vtk_point vtk_float row = Return p ∧ row_of_point p = vtk_float <$> row.
Proof.
  destruct row as [|x [|y [|z [|w row]]]]; try discriminate.
  intros _. eexists. split; reflexivity.
Qed.

Lemma vtk_points_rows (rows : list (list coord)) :
  three_columns rows →
  ∃ points, mapR (vtk_point vtk_float) rows = Return points ∧
            row_of_point <$> points = vtk_table vtk_float rows.
Proof.
  induction 1 as [|row rows Hrow _ (points & Hpoints & Hrows)].
  - exists []. split; reflexivity.
  - destruct (vtk_point_row row Hrow) as (p & Hp & Hp').
    exists (p :: points). cbn. rewrite Hp. cbn. rewrite Hpoints. cbn.
    rewrite Hp', Hrows. split; reflexivity.
Qed.

(** The copy loop as a walk over the indices [0 .. n-1]. *)
Lemma write_loop_mapR (n : nat) t :
  for_range n (fun i points =>
      row ← py_index t i;
      InsertNextPoint vtk_float points row) vtkPoints
  = mapR (fun i => row ← py_index t i; vtk_point vtk_float row) (seq 0 n).
Proof.
  unfold for_range, vtkPoints.
  rewrite (for_each_ext _ _
             (fun i acc => v ← (row ← py_index t i; vtk_point vtk_float row);
                           Return (acc ++ [v]))).
  - rewrite for_each_append.
    destruct (mapR _ (seq 0 n)); reflexivity.
  - intros i points _. unfold InsertNextPoint.
    destruct (py_index t i); reflexivity.
Qed.

(** The copy loop visits the rows [0 .. n-1] of the table and nothing
    else: it cannot tell a table from its first [n] rows. *)
Lemma write_loop_take (n : nat) t :
  for_range n (fun i points =>
      row ← py_index t i;
      InsertNextPoint vtk_float points row) vtkPoints
  = for_range n (fun i points =>
      row ← py_index (take n t) i;
      InsertNextPoint vtk_float points row) vtkPoints.
Proof.
  unfold for_range. apply for_each_ext.
  intros i points' Hi. apply elem_of_seq in Hi.
  unfold py_index. rewrite lookup_take_lt by lia. reflexivity.
Qed.

(** With at least [n] rows of three numbers, row [i] becomes point [i],
    in the precision of the container. *)
Lemma write_loop_ok (n : nat) t :
  (n ≤ length t)%nat →
  three_columns (take n t) →
  ∃ points,
    for_range n (fun i points =>
        row ← py_index t i;
        InsertNextPoint vtk_float points row) vtkPoints
    = Return points ∧
    row_of_point <$> points = vtk_table vtk_float (take n t).
Proof.
  intros Hn Hcols.
  rewrite write_loop_mapR, mapR_seq_index by lia.
  rewrite drop_0. apply vtk_points_rows. exact Hcols.
Qed.

(** With fewer rows than [n], the loop runs off the table. *)
Lemma write_loop_short (n : nat) t :
  (length t < n)%nat →
  three_columns t →
  for_range n (fun i points =>
      row ← py_index t i;
      InsertNextPoint vtk_float points row) vtkPoints
  = Raise IndexError.
Proof.
  intros Hn Hcols.
  rewrite write_loop_mapR. apply mapR_seq_index_short; [|lia].
  eapply Forall_impl; [exact Hcols|].
  intros row Hrow. destruct (vtk_point_row row Hrow) as (p & -> & _).
  reflexivity.
Qed.

(** ** Running the methods *)

Lemma bind_run {A B} (m : M A) (f : A → M B) st :
  (m ≫= f) st =
  match m st with
  | (st', Return a) => f a st'
  | (st', Raise e) => (st', Raise e)
  end.
Proof. reflexivity. Qed.

Ltac step :=
  rewrite bind_run;
  unfold _check_filename_type, _check_infile_instantiation, set_infile, set_outfile,
    get_self, log_event, pure, raise, mret, M_ret;
  cbv beta iota zeta;
  cbn [infile outfile extension self with_infile with_outfile with_event with_file
       reader_SetFileName vtkDataSetReader vtkUnstructuredGridReader
       GetOutput reader_output writer_SetFileName vtkDataSetWriter writer_input
       writer_file_name with_output failed_output reads reader_class
       ReadAllScalarsOn ReadAllVectorsOn].

Lemma check_extension_run s st :
  _check_extension (PyStr s) st =
  if decide (path_suffix s = extension (self st)) then (st, Return ())
  else (st, Raise (InvalidArgument WrongExtension)).
Proof.
  unfold _check_extension. step.
  destruct (decide _); reflexivity.
Qed.

Lemma reader_Update_run (r : Reader) (s : string) st :
  reader_file_name r = Some s →
  reader_Update r st =
  (with_event (FileRead s) st,
   Return (with_output r
             match disk st !! s with
             | Some (MeshFile d) =>
                 if reads (reader_class r) d then Some (load r d)
                 else failed_output (reader_class r)
             | _ => failed_output (reader_class r)
             end)).
Proof.
  intros Hs. unfold reader_Update. rewrite Hs. cbv zeta.
  change (disk (with_event (FileRead s) st)) with (disk st).
  destruct (disk st !! s) as [[d|fig]|]; [|reflexivity..].
  destruct (reads _ d); reflexivity.
Qed.

(** [parse], case by case. *)
Lemma parse_eq filename st :
  parse zero filename st =
  match filename with
  | PyStr s =>
      if decide (path_suffix s = extension (self st)) then
        let st1 := with_event (FileRead s) (with_infile (PyStr s) st) in
        match disk st !! s with
        | Some (MeshFile d) => (st1, Return (row_of_point <$> ds_points d))
        | _ => (st1, Raise ToolkitError)
        end
      else (st, Raise (InvalidArgument WrongExtension))
  | _ => (st, Raise (InvalidArgument NotAString))
  end.
Proof.
  destruct filename as [|s|z]; [reflexivity| |reflexivity].
  unfold parse. step. rewrite bind_run, check_extension_run.
  destruct (decide _) as [Hext|Hext]; [|reflexivity].
  step. step. step.
  rewrite bind_run, (reader_Update_run _ s) by reflexivity.
  change (disk (with_infile (PyStr s) st)) with (disk st).
  destruct (disk st !! s) as [[d|fig]|]; [|reflexivity|reflexivity].
  cbn [reads reader_class ReadAllScalarsOn ReadAllVectorsOn].
  step. step. rewrite parse_loop. reflexivity.
Qed.

(** [write], case by case. *)
Lemma write_eq mesh_points filename st :
  write vtk_float VTK_MAJOR_VERSION mesh_points filename st =
  match filename with
  | PyStr g =>
      if decide (path_suffix g = extension (self st)) then
        match infile (self st) with
        | PyNone => (st, Raise PreconditionError)
        | PyInt _ => (with_outfile (PyStr g) st, Raise ToolkitError)
        | PyStr f =>
            let st1 := with_event (FileRead f) (with_outfile (PyStr g) st) in
            match disk st !! f with
            | Some (MeshFile d) =>
                match for_range (length (ds_points d)) (fun i points =>
                          row ← py_index mesh_points i;
                          InsertNextPoint vtk_float points row) vtkPoints
                with
                | Return points =>
                    if is_point_set (ds_kind d) then
                      (with_event (FileWritten g)
                         (if can_write g
                          then with_file g (MeshFile (write_output d points)) st1
                          else st1),
                       Return ())
                    else (st1, Raise ToolkitError)
                | Raise e => (st1, Raise e)
                end
            | _ => (st1, Raise ToolkitError)
            end
        end
      else (st, Raise (InvalidArgument WrongExtension))
  | _ => (st, Raise (InvalidArgument NotAString))
  end.
Proof.
  destruct filename as [|g|z]; [reflexivity| |reflexivity].
  unfold write. step. rewrite bind_run, check_extension_run.
  destruct (decide _) as [Hext|Hext]; [|reflexivity].
  step. step.
  destruct (infile (self st)) as [|f|z] eqn:Hin; [reflexivity| |].
  2:{ step. step. rewrite Hin. step. reflexivity. }
  step. step. rewrite Hin. step.
  rewrite bind_run, (reader_Update_run _ f) by reflexivity.
  change (disk (with_outfile (PyStr g) st)) with (disk st).
  destruct (disk st !! f) as [[d|fig]|]; [|reflexivity|reflexivity].
  cbn [reads reader_class ReadAllScalarsOn ReadAllVectorsOn].
  step. step.
  change (GetNumberOfPoints (load ?r d)) with (length (ds_points d)).
  destruct (for_range _ _ _) as [points|e]; [|reflexivity].
  rewrite bind_run. unfold pure, SetPoints.
  change (ds_kind (load ?r d)) with (ds_kind d).
  destruct (is_point_set (ds_kind d)); [|reflexivity].
  cbv beta iota zeta. step. step.
  rewrite bind_run. unfold pure. rewrite writer_attach. cbv beta iota.
  reflexivity.
Qed.

(** [plot], case by case. *)
Lemma plot_eq plot_file save_fig st :
  plot zero plot_file save_fig st =
  match plot_file with
  | PyInt _ => (st, Raise (InvalidArgument NotAString))
  | _ =>
      match displayed_path plot_file st with
      | PyStr s =>
          let st1 := with_event (FileRead s) st in
          match plot_figure zero (read_grid st s) with
          | Return figure =>
              if save_fig then
                if can_write (saved_image s)
                then (with_event (FileWritten (saved_image s))
                        (with_file (saved_image s) (ImageFile figure) st1), Return ())
                else (st1, Raise ToolkitError)
              else (with_event (FigureShown figure) st1, Return ())
          | Raise e => (st1, Raise e)
          end
      | PyNone =>
          match plot_figure zero empty_grid with
          | Return figure =>
              if save_fig then (st, Raise ToolkitError)
              else (with_event (FigureShown figure) st, Return ())
          | Raise e => (st, Raise e)
          end
      | PyInt _ => (st, Raise ToolkitError)
      end
  end.
Proof.
  assert (∀ file st',
    (reader ← pure (reader_SetFileName vtkUnstructuredGridReader file);
     reader ← reader_Update reader;
     data ← pure (GetOutput reader);
     figure ← pure (plot_figure zero data);
     if negb save_fig then plt_show figure
     else match file with
          | PyStr s =>
              base ← pure (py_index (py_split "." s) 0);
              savefig figure (base +:+ ".png")
          | _ => raise ToolkitError
          end) st' =
    match file with
    | PyStr s =>
        let st1 := with_event (FileRead s) st' in
        match plot_figure zero (read_grid st' s) with
        | Return figure =>
            if save_fig then
              if can_write (saved_image s)
              then (with_event (FileWritten (saved_image s))
                      (with_file (saved_image s) (ImageFile figure) st1), Return ())
              else (st1, Raise ToolkitError)
            else (with_event (FigureShown figure) st1, Return ())
        | Raise e => (st1, Raise e)
        end
    | PyNone =>
        match plot_figure zero empty_grid with
        | Return figure =>
            if save_fig then (st', Raise ToolkitError)
            else (with_event (FigureShown figure) st', Return ())
        | Raise e => (st', Raise e)
        end
    | PyInt _ => (st', Raise ToolkitError)
    end) as Hrest.
  { intros [|s|z] st'.
    - step. rewrite bind_run. cbn [reader_Update reader_file_name].
      cbv beta iota. step. cbn [with_output failed_output reader_class].
      step. destruct (plot_figure zero empty_grid) as [figure|e]; [|reflexivity].
      destruct save_fig; reflexivity.
    - step. rewrite bind_run, (reader_Update_run _ s) by reflexivity.
      cbv beta iota. unfold read_grid.
      cbn [reads reader_class vtkUnstructuredGridReader].
      destruct (disk st' !! s) as [[d|fig]|];
        [destruct (bool_decide (ds_kind d = UnstructuredGrid))| |];
        step; step;
        try change (load ?r d) with (load vtkUnstructuredGridReader d);
        (destruct (plot_figure zero _) as [figure|e]; [|reflexivity]);
        (destruct save_fig; cbn [negb]; [|reflexivity]);
        step; rewrite py_split_head; cbv beta iota;
        unfold savefig; cbv zeta; fold (saved_image s);
        destruct (can_write (saved_image s)); reflexivity.
    - step. reflexivity. }
  destruct plot_file as [|s|z].
  - unfold plot. step. step. exact (Hrest (infile (self st)) st).
  - unfold plot. step. step. exact (Hrest (PyStr s) st).
  - reflexivity.
Qed.

(** The interactive session [show] starts for the grid it read. *)
Lemma show_eq show_file st :
  show VTK_MAJOR_VERSION GetScalarRange show_file st =
  let session output :=
    let mapper := mkMapper (Some output) (Some (GetScalarRange output)) in
    let renderer := mkRenderer [mkActor (Some mapper)] (20, 20, 20)%Z in
    InteractiveSession (mkInteractor (Some (mkRenderWindow [renderer])) true) in
  match show_file with
  | PyInt _ => (st, Raise (InvalidArgument NotAString))
  | _ =>
      match displayed_path show_file st with
      | PyStr s =>
          (with_event (session (read_grid st s)) (with_event (FileRead s) st), Return ())
      | PyNone => (with_event (session empty_grid) st, Return ())
      | PyInt _ => (st, Raise ToolkitError)
      end
  end.
Proof.
  assert (∀ file st',
    (reader ← pure (reader_SetFileName vtkUnstructuredGridReader file);
     reader ← reader_Update reader;
     output ← pure (GetOutput reader);
     mapper ← pure (if decide (VTK_MAJOR_VERSION ≤ 5)%nat
                    then mapper_SetInput VTK_MAJOR_VERSION vtkDataSetMapper output
                    else mapper_SetInputData VTK_MAJOR_VERSION vtkDataSetMapper output);
     interactor_Start
       (Initialize
          (SetRenderWindow vtkRenderWindowInteractor
             (AddRenderer vtkRenderWindow
                (SetBackground
                   (AddActor vtkRenderer
                      (SetMapper vtkActor
                         (SetScalarRange mapper (GetScalarRange output))))
                   20 20 20))))) st' =
    let session output :=
      let mapper := mkMapper (Some output) (Some (GetScalarRange output)) in
      let renderer := mkRenderer [mkActor (Some mapper)] (20, 20, 20)%Z in
      InteractiveSession (mkInteractor (Some (mkRenderWindow [renderer])) true) in
    match file with
    | PyStr s =>
        (with_event (session (read_grid st' s)) (with_event (FileRead s) st'), Return ())
    | PyNone => (with_event (session empty_grid) st', Return ())
    | PyInt _ => (st', Raise ToolkitError)
    end) as Hrest.
  { intros [|s|z] st'.
    - step. rewrite bind_run. cbn [reader_Update reader_file_name].
      cbv beta iota. step. cbn [with_output failed_output reader_class].
      rewrite bind_run. unfold pure. rewrite mapper_attach. reflexivity.
    - step. rewrite bind_run, (reader_Update_run _ s) by reflexivity.
      cbv beta iota. unfold read_grid.
      cbn [reads reader_class vtkUnstructuredGridReader].
      destruct (disk st' !! s) as [[d|fig]|];
        [destruct (bool_decide (ds_kind d = UnstructuredGrid))| |];
        step; rewrite bind_run; unfold pure; rewrite mapper_attach; reflexivity.
    - step. reflexivity. }
  destruct show_file as [|s|z].
  - unfold show. step. step. exact (Hrest (infile (self st)) st).
  - unfold show. step. step. exact (Hrest (PyStr s) st).
  - reflexivity.
Qed.

(** ** The loops of [plot_figure] *)

Lemma plot_cells_loop data :
  for_range (length (ds_cells data)) (fun i cells =>
      for_range 3 (fun j cells =>
          cell ← GetCell data i;
          id ← GetPointId cell j;
          np_set2 cells i j id) cells)
    (np_zeros2 0%nat (length (ds_cells data)) 3)
  = mapR cell_ids3 (ds_cells data).
Proof.
  unfold for_range at 1, np_zeros2.
  etrans.
  { apply (for_each_rows cell_ids3 (replicate 3 0%nat) _ (ds_cells data) 0%nat []
             eq_refl).
    intros i c done' rest Hi _ Hlen.
    rewrite Nat.sub_0_r in Hi.
    assert (GetCell data i = Return c) as Hcell
      by (unfold GetCell; rewrite Hi; reflexivity).
    subst i. unfold for_range, cell_ids3. cbn [seq for_each replicate].
    rewrite Hcell. cbn [mbind result_bind].
    destruct (GetPointId c 0) as [a|e]; [|reflexivity]. cbn [mbind result_bind].
    rewrite np_set2_row. cbn.
    destruct (GetPointId c 1) as [b|e]; [|reflexivity]. cbn [mbind result_bind].
    rewrite np_set2_row. cbn.
    destruct (GetPointId c 2) as [c'|e]; [|reflexivity]. cbn [mbind result_bind].
    rewrite np_set2_row. cbn.
    reflexivity. }
  destruct (mapR cell_ids3 (ds_cells data)); reflexivity.
Qed.

Lemma plot_vertices_plane (points : list Point) (cells : list (list nat)) (ids : list nat)
    (done' rest : list (list (list coord))) :
  cells !! length done' = Some ids →
  plot_vertices points cells (length done') (done' ++ np_zeros2 zero 3 3 :: rest)
  = (v ← triangle_vertices points ids; Return (done' ++ v :: rest)).
Proof.
  intros Hids.
  assert (py_index cells (length done') = Return ids) as Hrow
    by (unfold py_index; rewrite Hids; reflexivity).
  unfold plot_vertices, for_range, triangle_vertices. cbn [seq for_each].
  rewrite Hrow. cbn [mbind result_bind].
  destruct (py_index ids 0) as [a|e]; [|reflexivity]. cbn [mbind result_bind].
  destruct (points_GetPoint points a) as [[[xa ya] za]|e]; [|reflexivity].
  cbn [mbind result_bind].
  rewrite np_set3_plane. cbn. rewrite np_set3_plane. cbn. rewrite np_set3_plane. cbn.
  destruct (py_index ids 1) as [b|e]; [|reflexivity]. cbn [mbind result_bind].
  destruct (points_GetPoint points b) as [[[xb yb] zb]|e]; [|reflexivity].
  cbn [mbind result_bind].
  rewrite np_set3_plane. cbn. rewrite np_set3_plane. cbn. rewrite np_set3_plane. cbn.
  destruct (py_index ids 2) as [c|e]; [|reflexivity]. cbn [mbind result_bind].
  destruct (points_GetPoint points c) as [[[xc yc] zc]|e]; [|reflexivity].
  cbn [mbind result_bind].
  rewrite np_set3_plane. cbn. rewrite np_set3_plane. cbn. rewrite np_set3_plane. cbn.
  reflexivity.
Qed.

Lemma add_collections (axes : Figure) (vs : list (list (list coord))) :
  foldl (fun axes v => add_collection3d axes (blue_triangle v)) axes vs
  = mkFigure (fig_collections axes ++ (blue_triangle <$> vs)) (fig_scale axes).
Proof.
  revert axes. induction vs as [|v vs IH]; intros axes; cbn.
  - rewrite app_nil_r. destruct axes; reflexivity.
  - rewrite IH. cbn. rewrite <- app_assoc. reflexivity.
Qed.

Lemma plot_triangles_loop (points : list Point) (cells : list (list nat)) (n : nat) :
  n = length cells →
  for_range n (fun i '(vtx, axes) =>
      vtx ← plot_vertices points cells i vtx;
      vtx_i ← py_index vtx i;
      let tri := Poly3DCollection_new [vtx_i] in
      let tri := set_color tri "b" in
      let tri := set_edgecolor tri "k" in
      let axes := add_collection3d axes tri in
      Return (vtx, axes)) (np_zeros3 zero n 3 3, Axes3D plt_figure)
  = (vs ← mapR (triangle_vertices points) cells;
     Return (vs, mkFigure (blue_triangle <$> vs) None)).
Proof.
  intros ->. unfold for_range, np_zeros3.
  etrans.
  { apply (for_each_rows_acc (triangle_vertices points) (np_zeros2 zero 3 3)
             (fun axes v => add_collection3d axes (blue_triangle v))
             _ cells 0%nat [] (Axes3D plt_figure) eq_refl).
    intros i ids done' rest axes Hi _ Hlen.
    rewrite Nat.sub_0_r in Hi. subst i.
    rewrite plot_vertices_plane with (ids := ids) by exact Hi.
    destruct (triangle_vertices points ids) as [v|e]; [|reflexivity].
    cbn [mbind result_bind]. rewrite py_index_app_r. reflexivity. }
  destruct (mapR _ cells) as [vs|e]; [|reflexivity].
  cbn [mbind result_bind app]. rewrite add_collections. reflexivity.
Qed.

(** [plot_figure] reads three point indices per cell and turns each
    cell into one triangle; the array it scales the axes with is the
    vertex array, flattened as numpy takes the order [-1]. *)
Lemma plot_figure_eq data :
  plot_figure zero data
  = (if has_cell_array data then
       ids ← mapR cell_ids3 (ds_cells data);
       vs ← mapR (triangle_vertices (ds_points data)) ids;
       scale ← np_flatten3_order vs (-1);
       Return (mkFigure (blue_triangle <$> vs) (Some (scale, scale, scale)))
     else Raise ToolkitError).
Proof.
  unfold plot_figure, GetCells.
  destruct (has_cell_array data); [|reflexivity].
  cbn [mbind result_bind]. cbv zeta. unfold GetNumberOfCells.
  rewrite plot_cells_loop.
  destruct (mapR cell_ids3 (ds_cells data)) as [ids|e] eqn:Hids; [|reflexivity].
  cbn [mbind result_bind].
  rewrite plot_triangles_loop by (symmetry; exact (mapR_length _ _ _ Hids)).
  unfold GetPoints.
  destruct (mapR _ ids) as [vs|e]; [|reflexivity].
  cbn [mbind result_bind].
  destruct (np_flatten3_order vs (-1)); reflexivity.
Qed.

Lemma has_cell_array_cells data :
  ds_cells data ≠ [] → has_cell_array data = true.
Proof.
  unfold has_cell_array. destruct (ds_cells data); [congruence|reflexivity].
Qed.

Lemma triangle_of_reads (points : list Point) (c : Cell) (ids : list nat)
    (v : list (list coord)) :
  cell_ids3 c = Return ids →
  triangle_vertices points ids = Return v →
  triangle points c = Some (blue_triangle v).
Proof.
  unfold cell_ids3, GetPointId, triangle_vertices, points_GetPoint, py_index, triangle.
  destruct (cell_point_ids c) as [|a [|b [|c' rest]]]; try discriminate.
  cbn. intros [= <-]. cbn.
  destruct (points !! a) as [pa|]; [|discriminate]. cbn.
  destruct (points !! b) as [pb|]; [|discriminate]. cbn.
  destruct (points !! c') as [pc|]; [|discriminate]. cbn.
  intros [= <-]. reflexivity.
Qed.

Lemma reads_of_triangle (points : list Point) (c : Cell) (tri : Poly3DCollection) :
  triangle points c = Some tri →
  ∃ ids (v : list (list coord)),
    cell_ids3 c = Return ids ∧ triangle_vertices points ids = Return v ∧
           tri = blue_triangle v.
Proof.
  unfold cell_ids3, GetPointId, triangle_vertices, points_GetPoint, py_index, triangle.
  destruct (cell_point_ids c) as [|a [|b [|c' rest]]]; try discriminate.
  cbn.
  destruct (points !! a) as [pa|] eqn:Ha; [|discriminate]. cbn.
  destruct (points !! b) as [pb|] eqn:Hb; [|discriminate]. cbn.
  destruct (points !! c') as [pc|] eqn:Hc; [|discriminate]. cbn.
  intros [= <-]. eexists _, _. split; [reflexivity|]. cbn.
  rewrite Ha. cbn. rewrite Hb. cbn. rewrite Hc. cbn. split; reflexivity.
Qed.

(** A cell with fewer than three point indices has no triangle. *)
Lemma triangle_short (points : list (@Point coord)) (c : Cell) :
  (length (cell_point_ids c) < 3)%nat → triangle points c = None.
Proof.
  unfold triangle. destruct (cell_point_ids c) as [|a [|b [|c' rest]]]; cbn; try lia;
    reflexivity.
Qed.

Lemma plot_figure_triangles data figure :
  plot_figure zero data = Return figure →
  Forall2 (fun c tri => triangle (ds_points data) c = Some tri)
    (ds_cells data) (fig_collections figure).
Proof.
  rewrite plot_figure_eq.
  destruct (has_cell_array data); [|discriminate].
  destruct (mapR cell_ids3 (ds_cells data)) as [ids|e] eqn:Hids; [|discriminate].
  cbn [mbind result_bind].
  destruct (mapR _ ids) as [vs|e] eqn:Hvs; [|discriminate].
  cbn [mbind result_bind].
  destruct (np_flatten3_order vs (-1)) as [scale|e]; [|discriminate].
  cbn [mbind result_bind]. intros [= <-]. cbn [fig_collections].
  apply mapR_Return in Hids, Hvs.
  revert vs Hvs. induction Hids as [|c i cells ids' Hc _ IH]; intros vs Hvs.
  - inversion Hvs. constructor.
  - inversion Hvs as [|? v ? vs' Hv Hvs']; subst. cbn. constructor.
    + eapply triangle_of_reads; eassumption.
    + apply IH. exact Hvs'.
Qed.

Lemma plot_figure_total data :
  numpy_order_by_truth = true →
  has_cell_array data = true →
  Forall (fun c => is_Some (triangle (ds_points data) c)) (ds_cells data) →
  ∃ figure, plot_figure zero data = Return figure.
Proof.
  intros Hnumpy Hcells Hall. rewrite plot_figure_eq, Hcells.
  assert (∃ ids vs, mapR cell_ids3 (ds_cells data) = Return ids ∧
                    mapR (triangle_vertices (ds_points data)) ids = Return vs)
    as (ids & vs & -> & Hvs).
  { induction Hall as [|c cells [tri Hc] _ (ids & vs & Hids & Hvs)].
    - exists [], []. split; reflexivity.
    - destruct (reads_of_triangle _ _ _ Hc) as (i & v & Hi & Hv & _).
      exists (i :: ids), (v :: vs). cbn. rewrite Hi. cbn. rewrite Hids. cbn.
      rewrite Hv. cbn. rewrite Hvs. split; reflexivity. }
  cbn [mbind result_bind]. rewrite Hvs. cbn [mbind result_bind].
  unfold np_flatten3_order. rewrite Hnumpy. eexists. reflexivity.
Qed.

(** A cell without triangle makes [plot_figure] raise. *)
Lemma plot_figure_raises data (c : Cell) :
  c ∈ ds_cells data → triangle (ds_points data) c = None →
  ∃ e, plot_figure zero data = Raise e.
Proof.
  intros Hc Hnone.
  destruct (plot_figure zero data) as [figure|e] eqn:Hfig; [|exists e; reflexivity].
  apply plot_figure_triangles in Hfig.
  apply list_elem_of_lookup in Hc as [i Hi].
  destruct (Forall2_lookup_l _ _ _ _ _ Hfig Hi) as (tri & _ & Htri).
  congruence.
Qed.

(** With a numpy that rejects the order [-1], [plot_figure] never
    returns. *)
Lemma plot_figure_numpy data :
  numpy_order_by_truth = false → is_raise (plot_figure zero data) = true.
Proof.
  intros Hnumpy. rewrite plot_figure_eq.
  destruct (has_cell_array data); [|reflexivity].
  destruct (mapR cell_ids3 (ds_cells data)) as [ids|e]; [|reflexivity].
  cbn [mbind result_bind].
  destruct (mapR _ ids) as [vs|e]; [|reflexivity].
  cbn [mbind result_bind]. unfold np_flatten3_order. rewrite Hnumpy. reflexivity.
Qed.

(** The grid [plot] and [show] work on when the path holds an
    unstructured grid. *)
Lemma read_grid_mesh st s d :
  disk st !! s = Some (MeshFile d) →
  ds_kind d = UnstructuredGrid →
  read_grid st s = load vtkUnstructuredGridReader d.
Proof.
  intros Hd Hkind. unfold read_grid. rewrite Hd. cbn [reads].
  rewrite bool_decide_eq_true_2 by exact Hkind. reflexivity.
Qed.

(** [plot] on a path. *)
Lemma plot_on_path st plot_file s save_fig :
  displayed_path plot_file st = PyStr s →
  plot zero plot_file save_fig st =
  let st1 := with_event (FileRead s) st in
  match plot_figure zero (read_grid st s) with
  | Return figure =>
      if save_fig then
        if can_write (saved_image s)
        then (with_event (FileWritten (saved_image s))
                (with_file (saved_image s) (ImageFile figure) st1), Return ())
        else (st1, Raise ToolkitError)
      else (with_event (FigureShown figure) st1, Return ())
  | Raise e => (st1, Raise e)
  end.
Proof.
  intros Hs. rewrite plot_eq, Hs.
  destruct plot_file as [|p|z]; [reflexivity|reflexivity|discriminate Hs].
Qed.

(** [plot] completes on an unstructured grid whose cells all have a
    triangle, with a numpy that takes the order [-1]. *)
Lemma plot_on_triangles st plot_file s d :
  displayed_path plot_file st = PyStr s →
  disk st !! s = Some (MeshFile d) →
  ds_kind d = UnstructuredGrid →
  numpy_order_by_truth = true →
  ds_cells d ≠ [] →
  Forall (fun c => is_Some (triangle (ds_points d) c)) (ds_cells d) →
  ∃ figure,
    plot_figure zero (read_grid st s) = Return figure ∧
    plot zero plot_file false st
    = (with_event (FigureShown figure) (with_event (FileRead s) st), Return ()) ∧
    (can_write (saved_image s) = true →
     plot zero plot_file true st
     = (with_event (FileWritten (saved_image s))
          (with_file (saved_image s) (ImageFile figure) (with_event (FileRead s) st)),
        Return ())).
Proof.
  intros Hs Hd Hkind Hnumpy Hcells Hall.
  rewrite !(plot_on_path st plot_file s) by exact Hs.
  rewrite (read_grid_mesh st s d Hd Hkind).
  destruct (plot_figure_total (load vtkUnstructuredGridReader d) Hnumpy
              (has_cell_array_cells _ Hcells) Hall) as [figure Hfig].
  exists figure. rewrite Hfig. cbv zeta.
  split; [reflexivity|]. split; [reflexivity|].
  intros ->. reflexivity.
Qed.

Lemma vtk_points_Return (rows : list (list coord)) (points : list Point) :
  mapR (vtk_point vtk_float) rows = Return points →
  row_of_point <$> points = vtk_table vtk_float rows.
Proof.
  intros H. apply mapR_Return in H.
  induction H as [|row p rows points Hp _ IH]; [reflexivity|].
  cbn. rewrite IH. f_equal.
  destruct row as [|x [|y [|z [|w row]]]]; try discriminate Hp.
  injection Hp as <-. reflexivity.
Qed.

(** When the copy loop completes, the table had at least [n] rows and
    the points are its first [n] rows. *)
Lemma write_loop_Return (n : nat) t (points : list Point) :
  for_range n (fun i points =>
      row ← py_index t i;
      InsertNextPoint vtk_float points row) vtkPoints
  = Return points →
  (n ≤ length t)%nat ∧ length points = n ∧
  row_of_point <$> points = vtk_table vtk_float (take n t).
Proof.
  rewrite write_loop_mapR. intros H.
  assert (n ≤ length t)%nat as Hn
    by (destruct (mapR_seq_index_Return _ _ _ _ _ H); lia).
  rewrite mapR_seq_index, drop_0 in H by lia.
  split; [exact Hn|]. split.
  - rewrite (mapR_length _ _ _ H), length_take. lia.
  - apply vtk_points_Return. exact H.
Qed.

Lemma rows_three_columns (points : list (@Point coord)) :
  three_columns (row_of_point <$> points).
Proof.
  apply Forall_fmap, Forall_forall. intros [[x y] z] _. reflexivity.
Qed.

(** ** What the writer leaves in the file *)

(** The rows of the points as printed. *)
Lemma written_rows (points : list Point) t :
  row_of_point <$> points = vtk_table vtk_float t →
  row_of_point <$> (written_point <$> points) = written_table vtk_float t.
Proof.
  intros Hrows.
  transitivity (fmap (M := list) (vtk_ascii Float32) <$> (row_of_point <$> points)).
  - rewrite <- !list_fmap_compose. apply list_fmap_ext.
    intros i [[x y] z] _. reflexivity.
  - rewrite Hrows. unfold vtk_table, written_table.
    rewrite <- list_fmap_compose. apply list_fmap_ext.
    intros i row _. cbn. rewrite <- list_fmap_compose. reflexivity.
Qed.







(** ** The claims *)

(** C2. Whenever [parse] returns a table, it has read a mesh file; with
    [P] the number of points of that mesh, the table has exactly [P]
    rows, every row has 3 columns, and row [i] holds the coordinates of
    point [i] of the mesh. *)
Theorem parse_shape st filename st' t :
  parse zero filename st = (st', Return t) →
  ∃ f d,
    filename = PyStr f ∧ disk st !! f = Some (MeshFile d) ∧
    length t = length (ds_points d) ∧
    three_columns t ∧
    ∀ i x y z, ds_points d !! i = Some (x, y, z) → t !! i = Some [x; y; z].
Proof.
  rewrite parse_eq.
  destruct filename as [|f|z]; [discriminate| |discriminate].
  destruct (decide _) as [Hext|Hext]; [|discriminate].
  destruct (disk st !! f) as [[d|fig]|] eqn:Hd; [|discriminate|discriminate].
  cbv zeta. intros [= <- <-].
  exists f, d. split; [reflexivity|]. split; [exact Hd|].
  split; [apply length_fmap|]. split; [apply rows_three_columns|].
  intros i x y z Hi. rewrite list_lookup_fmap.
  exact (f_equal (fmap row_of_point) Hi).
Qed.

(** [parse] does return a table for a path with the handler's extension
    that holds a mesh. *)
Lemma parse_total st f d :
  path_suffix f = extension (self st) →
  disk st !! f = Some (MeshFile d) →
  parse zero (PyStr f) st
  = (with_event (FileRead f) (with_infile (PyStr f) st),
     Return (row_of_point <$> ds_points d)).
Proof.
  intros Hext Hd. rewrite parse_eq.
  destruct (decide _) as [_|Hne]; [|contradiction].
  rewrite Hd. reflexivity.
Qed.

(** [write] of a table that has a row for every point of the input
    mesh, a point set. *)
Lemma write_full_table st f d t g :
  infile (self st) = PyStr f →
  disk st !! f = Some (MeshFile d) →
  is_point_set (ds_kind d) = true →
  path_suffix g = extension (self st) →
  length t = length (ds_points d) →
  three_columns t →
  ∃ points,
    write vtk_float VTK_MAJOR_VERSION t (PyStr g) st
    = (with_event (FileWritten g)
         (if can_write g
          then with_file g (MeshFile (write_output d points))
                 (with_event (FileRead f) (with_outfile (PyStr g) st))
          else with_event (FileRead f) (with_outfile (PyStr g) st)),
       Return ()) ∧
    row_of_point <$> points = vtk_table vtk_float t.
Proof.
  intros Hin Hd Hset Hext Hlen Hcols.
  rewrite write_eq. destruct (decide _) as [_|Hne]; [|contradiction].
  rewrite Hin, Hd. cbv zeta.
  destruct (write_loop_ok (length (ds_points d)) t) as (points & -> & Hpoints).
  { lia. }
  { rewrite take_ge by lia. exact Hcols. }
  rewrite take_ge in Hpoints by lia. rewrite Hset.
  exists points. split; [reflexivity|exact Hpoints].
Qed.



(** [write], [plot] and [show] never set the input file, and no method
    changes the extension. *)
Lemma run_call_infile st (c : call) :
  is_parse c = false →
  infile (self (run_call zero vtk_float VTK_MAJOR_VERSION GetScalarRange st c))
  = infile (self st).
Proof.
  destruct c as [filename|t filename|plot_file save_fig|show_file];
    [discriminate| | |]; intros _; cbn [run_call].
  - rewrite write_eq. repeat case_match; cbn; congruence.
  - rewrite plot_eq. repeat case_match; cbn; congruence.
  - rewrite show_eq. repeat case_match; cbn; congruence.
Qed.

Lemma run_call_extension st (c : call) :
  extension (self (run_call zero vtk_float VTK_MAJOR_VERSION GetScalarRange st c))
  = extension (self st).
Proof.
  destruct c as [filename|t filename|plot_file save_fig|show_file]; cbn [run_call].
  - rewrite parse_eq. repeat case_match; cbn; congruence.
  - rewrite write_eq. repeat case_match; cbn; congruence.
  - rewrite plot_eq. repeat case_match; cbn; congruence.
  - rewrite show_eq. repeat case_match; cbn; congruence.
Qed.

Lemma run_calls_never_parsed (cs : list call) : ∀ st,
  forallb (fun c => negb (is_parse c)) cs = true →
  infile (self (run_calls zero vtk_float VTK_MAJOR_VERSION GetScalarRange st cs))
  = infile (self st) ∧
  extension (self (run_calls zero vtk_float VTK_MAJOR_VERSION GetScalarRange st cs))
  = extension (self st).
Proof.
  induction cs as [|c cs IH]; intros st Hcs; [split; reflexivity|].
  cbn in Hcs. apply andb_prop in Hcs as [Hc Hcs].
  apply negb_true_iff in Hc.
  unfold run_calls in *. cbn [fold_left].
  destruct (IH (run_call zero vtk_float VTK_MAJOR_VERSION GetScalarRange st c) Hcs)
    as [-> ->].
  split; [apply run_call_infile; exact Hc|apply run_call_extension].
Qed.

(** C4. On a handler on which [parse] was never called (a handler as
    constructed, then used through any calls of [write], [plot] and
    [show]), [write] to a path with the extension ".vtk" raises the
    precondition error, whatever the table, and leaves the state as it
    was: no file is read or written. *)
Theorem write_before_parse (files : gmap string File) (cs : list call) t g :
  forallb (fun c => negb (is_parse c)) cs = true →
  path_suffix g = ".vtk" →
  let st := run_calls zero vtk_float VTK_MAJOR_VERSION GetScalarRange
              (fresh_state files) cs in
  write vtk_float VTK_MAJOR_VERSION t (PyStr g) st = (st, Raise PreconditionError).
Proof.
  intros Hcs Hg st.
  destruct (run_calls_never_parsed cs (fresh_state files) Hcs) as [Hin Hext].
  fold st in Hin, Hext. cbn in Hin, Hext.
  rewrite write_eq. destruct (decide _) as [_|Hne]; [|congruence].
  rewrite Hin. reflexivity.
Qed.

(** C5. On a handler whose extension is ".vtk", a file name that is
    not a string, or a string whose suffix is not ".vtk", makes [parse]
    and [write] raise an invalid-argument error and leaves the state as
    it was: nothing is read or written and the recorded input and output
    paths are unchanged. *)
Theorem bad_path_rejected st filename t :
  extension (self st) = ".vtk" →
  (∀ s, filename = PyStr s → path_suffix s ≠ ".vtk") →
  (∃ why, parse zero filename st = (st, Raise (InvalidArgument why))) ∧
  (∃ why, write vtk_float VTK_MAJOR_VERSION t filename st
          = (st, Raise (InvalidArgument why))).
Proof.
  intros Hext Hbad. rewrite parse_eq, write_eq.
  destruct filename as [|s|z].
  - split; exists NotAString; reflexivity.
  - specialize (Hbad s eq_refl). rewrite Hext.
    destruct (decide _) as [Heq|_]; [contradiction|].
    split; exists WrongExtension; reflexivity.
  - split; exists NotAString; reflexivity.
Qed.

(** C6, as the code has it.  For a path supplied to [plot] or [show]
    (an argument other than [None]), the file name type check is made
    before any I/O: a value that is not a string raises the
    invalid-argument error and leaves the state as it was.  The
    extension check is not made: a string is handed to the reader
    whatever its suffix, so the read of that path is the next event of
    the log. *)
Theorem display_checks_type_only st arg save_fig :
  arg ≠ PyNone →
  ((∀ s, arg ≠ PyStr s) →
     plot zero arg save_fig st = (st, Raise (InvalidArgument NotAString)) ∧
     show VTK_MAJOR_VERSION GetScalarRange arg st
     = (st, Raise (InvalidArgument NotAString))) ∧
  (∀ s, arg = PyStr s →
     (∃ rest, io_log (fst (plot zero arg save_fig st))
              = io_log st ++ FileRead s :: rest) ∧
     (∃ rest, io_log (fst (show VTK_MAJOR_VERSION GetScalarRange arg st))
              = io_log st ++ FileRead s :: rest)).
Proof.
  intros Hnone. rewrite plot_eq, show_eq. split.
  - intros Hstr. destruct arg as [|s|z]; [contradiction|destruct (Hstr s eq_refl)|].
    split; reflexivity.
  - intros s ->. cbn [displayed_path]. cbv zeta. split.
    + destruct (plot_figure _ _) as [figure|e]; [|exists []; reflexivity].
      destruct save_fig; [destruct (can_write _)|];
        eexists; cbn; try rewrite <- app_assoc; reflexivity.
    + eexists. cbn. rewrite <- app_assoc. reflexivity.
Qed.

(** The triangle of a cell depends on its first three point indices
    only: not on its type, not on the indices that follow. *)
Lemma triangle_first_three (points : list (@Point coord)) (ty : nat) (a b c : nat)
    (more : list nat) :
  triangle points (mkCell ty (a :: b :: c :: more))
  = triangle points (mkCell 5 [a; b; c]).
Proof. reflexivity. Qed.

(** C7, as the code has it.  On a path that holds an unstructured grid:
    whenever [plot] completes, the figure it shows or saves holds exactly
    one polygon collection per cell of the grid, in order, and the
    collection of a cell is the triangle of the points named by the
    first three point indices of the cell, styled blue with black edges;
    [plot] does complete when every cell has three point indices that
    name points of the grid (with a numpy that takes the order of
    [flatten] by its truth value, a grid that has cells, and in save
    mode an image path that can be written); a cell without such
    indices, as every cell with fewer than three point indices is, makes
    [plot] raise after the read, with no figure; the type of a cell and
    the indices after its third play no part. *)
Theorem plot_one_triangle_per_cell st plot_file s d save_fig :
  displayed_path plot_file st = PyStr s →
  disk st !! s = Some (MeshFile d) →
  ds_kind d = UnstructuredGrid →
  (∀ st', plot zero plot_file save_fig st = (st', Return ()) →
     ∃ figure,
       (if save_fig then disk st' !! saved_image s = Some (ImageFile figure)
        else last (io_log st') = Some (FigureShown figure)) ∧
       length (fig_collections figure) = length (ds_cells d) ∧
       Forall2 (fun c tri => triangle (ds_points d) c = Some tri)
         (ds_cells d) (fig_collections figure)) ∧
  (numpy_order_by_truth = true →
   ds_cells d ≠ [] →
   Forall (fun c => is_Some (triangle (ds_points d) c)) (ds_cells d) →
   (save_fig = true → can_write (saved_image s) = true) →
   ∃ st', plot zero plot_file save_fig st = (st', Return ())) ∧
  (∀ c, c ∈ ds_cells d → triangle (ds_points d) c = None →
     ∃ e, plot zero plot_file save_fig st = (with_event (FileRead s) st, Raise e)) ∧
  (∀ c, (length (cell_point_ids c) < 3)%nat → triangle (ds_points d) c = None) ∧
  (∀ ty a b c more,
     triangle (ds_points d) (mkCell ty (a :: b :: c :: more))
     = triangle (ds_points d) (mkCell 5 [a; b; c])).
Proof.
  intros Hs Hd Hkind.
  pose proof (read_grid_mesh st s d Hd Hkind) as Hgrid.
  split; [|split; [|split; [|split]]].
  - intros st' Hplot.
    rewrite (plot_on_path st plot_file s save_fig Hs), Hgrid in Hplot.
    cbv zeta in Hplot.
    destruct (plot_figure zero (load vtkUnstructuredGridReader d))
      as [figure|e] eqn:Hfig; [|discriminate].
    pose proof (plot_figure_triangles _ _ Hfig) as Htri.
    cbn [load ds_points ds_cells] in Htri.
    exists figure. split.
    { destruct save_fig.
      - destruct (can_write (saved_image s)); [|discriminate].
        injection Hplot as <-. cbn. apply lookup_insert_eq.
      - injection Hplot as <-. cbn. apply last_snoc. }
    split; [symmetry; exact (Forall2_length _ _ _ Htri)|exact Htri].
  - intros Hnumpy Hcells Hall Hcan.
    destruct (plot_on_triangles st plot_file s d Hs Hd Hkind Hnumpy Hcells Hall)
      as (figure & _ & Hshow & Hsave).
    destruct save_fig; eexists; [apply Hsave, Hcan; reflexivity|exact Hshow].
  - intros c Hc Hnone.
    rewrite (plot_on_path st plot_file s save_fig Hs), Hgrid. cbv zeta.
    destruct (plot_figure_raises (load vtkUnstructuredGridReader d) c Hc Hnone)
      as [e ->].
    exists e. reflexivity.
  - intros c. apply triangle_short.
  - intros. apply triangle_first_three.
Qed.

(** The ways a call of [plot] can end. *)
Lemma plot_cases st plot_file save_fig :
  (∃ e, plot zero plot_file save_fig st = (st, Raise e)) ∨
  (save_fig = false ∧
   ∃ figure, plot zero plot_file save_fig st
             = (with_event (FigureShown figure) st, Return ())) ∨
  (∃ s, displayed_path plot_file st = PyStr s ∧
        ((∃ e, plot zero plot_file save_fig st
               = (with_event (FileRead s) st, Raise e)) ∨
         (∃ figure,
            plot zero plot_file save_fig st
            = (if save_fig then
                 with_event (FileWritten (saved_image s))
                   (with_file (saved_image s) (ImageFile figure)
                      (with_event (FileRead s) st))
               else with_event (FigureShown figure) (with_event (FileRead s) st),
               Return ())))).
Proof.
  assert (∀ s, displayed_path plot_file st = PyStr s →
            (∃ e, plot zero plot_file save_fig st
                  = (with_event (FileRead s) st, Raise e)) ∨
            (∃ figure,
               plot zero plot_file save_fig st
               = (if save_fig then
                    with_event (FileWritten (saved_image s))
                      (with_file (saved_image s) (ImageFile figure)
                         (with_event (FileRead s) st))
                  else with_event (FigureShown figure) (with_event (FileRead s) st),
                  Return ()))) as Hpath.
  { intros s Hs. rewrite (plot_on_path st plot_file s save_fig Hs). cbv zeta.
    destruct (plot_figure _ _) as [figure|e]; [|left; eexists; reflexivity].
    destruct save_fig; [destruct (can_write _)|];
      [right; exists figure; reflexivity|left; eexists; reflexivity|
       right; exists figure; reflexivity]. }
  destruct (displayed_path plot_file st) as [|s|z] eqn:Hs.
  - rewrite plot_eq, Hs.
    destruct plot_file as [|p|z]; [|discriminate Hs|left; eexists; reflexivity].
    destruct (plot_figure zero empty_grid) as [figure|e]; [|left; eexists; reflexivity].
    destruct save_fig; [left; eexists; reflexivity|].
    right. left. split; [reflexivity|]. exists figure. reflexivity.
  - right. right. exists s. split; [reflexivity|]. apply Hpath. reflexivity.
  - left. rewrite plot_eq, Hs. destruct plot_file; eexists; reflexivity.
Qed.


(** Whenever [show] completes, the session it started has one renderer,
    whose background is (20, 20, 20): twenty times white on every
    channel, outside the normalized colours. *)
Lemma show_background st show_file st' :
  show VTK_MAJOR_VERSION GetScalarRange show_file st = (st', Return ()) →
  ∃ interactor window renderer,
    last (io_log st') = Some (InteractiveSession interactor) ∧
    iren_window interactor = Some window ∧
    win_renderers window = [renderer] ∧
    ren_background renderer = (20, 20, 20)%Z ∧
    ¬ normalized (ren_background renderer).
Proof.
  rewrite show_eq. cbv zeta. intros Hshow.
  assert (∃ session, io_log st' = io_log st' ∧
            last (io_log st')
            = Some (InteractiveSession
                      (mkInteractor
                         (Some (mkRenderWindow
                                  [mkRenderer [mkActor (Some session)] (20, 20, 20)%Z]))
                         true))) as (session & _ & Hlast).
  { destruct show_file as [|s|z]; [| |discriminate Hshow];
      cbn [displayed_path] in Hshow.
    - destruct (infile (self st)) as [|s|z]; [| |discriminate Hshow];
        injection Hshow as <-; eexists; (split; [reflexivity|apply last_snoc]).
    - injection Hshow as <-. eexists. split; [reflexivity|apply last_snoc]. }
  eexists _, _, _. split; [exact Hlast|]. cbn.
  split; [reflexivity|]. split; [reflexivity|]. split; [reflexivity|].
  cbn. lia.
Qed.

(** C10. With an input source established whose mesh has [P] points,
    [write] copies [P] rows of the table, not as many as the table has.
    Given a table of at least [P] rows it does what it does on the first
    [P] rows alone, and when these have three columns and the mesh is a
    point set it completes, with a mesh of exactly [P] points, the first
    [P] rows, as what it writes.  Whenever it completes, the table had
    at least [P] rows and the mesh written has exactly [P] points, the
    first [P] rows.  Given a table of three columns with fewer than [P]
    rows it raises the index error of the row access (not the
    precondition error), after the read and without writing any file. *)
Theorem write_copies_point_count st f d t g :
  infile (self st) = PyStr f →
  disk st !! f = Some (MeshFile d) →
  path_suffix g = extension (self st) →
  ((length (ds_points d) ≤ length t)%nat →
     write vtk_float VTK_MAJOR_VERSION t (PyStr g) st
     = write vtk_float VTK_MAJOR_VERSION (take (length (ds_points d)) t) (PyStr g) st ∧
     (three_columns (take (length (ds_points d)) t) →
      is_point_set (ds_kind d) = true →
      ∃ d',
        write vtk_float VTK_MAJOR_VERSION t (PyStr g) st
        = (with_event (FileWritten g)
             (if can_write g
              then with_file g (MeshFile d')
                     (with_event (FileRead f) (with_outfile (PyStr g) st))
              else with_event (FileRead f) (with_outfile (PyStr g) st)),
           Return ()) ∧
        length (ds_points d') = length (ds_points d) ∧
        row_of_point <$> ds_points d'
        = written_table vtk_float (take (length (ds_points d)) t))) ∧
  (∀ st', write vtk_float VTK_MAJOR_VERSION t (PyStr g) st = (st', Return ()) →
     (length (ds_points d) ≤ length t)%nat ∧
     (can_write g = true →
      ∃ d', disk st' !! g = Some (MeshFile d') ∧
            length (ds_points d') = length (ds_points d) ∧
            row_of_point <$> ds_points d'
            = written_table vtk_float (take (length (ds_points d)) t))) ∧
  ((length t < length (ds_points d))%nat → three_columns t →
     write vtk_float VTK_MAJOR_VERSION t (PyStr g) st
     = (with_event (FileRead f) (with_outfile (PyStr g) st), Raise IndexError) ∧
     disk (with_event (FileRead f) (with_outfile (PyStr g) st)) = disk st).
Proof.
  intros Hin Hd Hext. rewrite !write_eq.
  destruct (decide _) as [_|Hne]; [|contradiction].
  rewrite Hin, Hd. cbv zeta. split; [|split].
  - intros Hn. split; [rewrite write_loop_take; reflexivity|].
    intros Hcols Hset.
    destruct (write_loop_ok (length (ds_points d)) t Hn Hcols) as (points & -> & Hrows).
    rewrite Hset. exists (write_output d points). split; [reflexivity|].
    cbn [write_output written ds_points]. split.
    + rewrite length_fmap, <- (length_fmap row_of_point), Hrows.
      unfold vtk_table. rewrite length_fmap, length_take. lia.
    + apply written_rows. exact Hrows.
  - intros st' Hwrite.
    destruct (for_range _ _ _) as [points|e] eqn:Hloop; [|discriminate].
    apply write_loop_Return in Hloop as (Hn & Hlen & Hrows).
    destruct (is_point_set (ds_kind d)); [|discriminate].
    injection Hwrite as <-. split; [exact Hn|].
    intros ->. exists (write_output d points). cbn [fst disk with_event with_file].
    split; [apply lookup_insert_eq|]. cbn [write_output written ds_points].
    split; [rewrite length_fmap; exact Hlen|apply written_rows; exact Hrows].
  - intros Hshort Hcols. rewrite write_loop_short by assumption.
    split; reflexivity.
Qed.

(** ** Further properties of the four methods *)

(** [parse] assigns [self.infile] before it reads.  For a path with the
    handler's extension, whatever the disk holds, the state after the
    call has that path as input file, the output file and the disk as
    before, and exactly one more event, the read of the path; when the
    path holds no mesh the call raises the toolkit's failure, and the
    input file is replaced all the same. *)
Theorem parse_records_infile_first st s :
  path_suffix s = extension (self st) →
  let st' := fst (parse zero (PyStr s) st) in
  infile (self st') = PyStr s ∧
  outfile (self st') = outfile (self st) ∧
  disk st' = disk st ∧
  io_log st' = io_log st ++ [FileRead s] ∧
  ((∀ d, disk st !! s ≠ Some (MeshFile d)) →
   snd (parse zero (PyStr s) st) = Raise ToolkitError).
Proof.
  intros Hext. cbv zeta. rewrite parse_eq.
  destruct (decide _) as [_|Hne]; [|contradiction].
  cbv zeta. destruct (disk st !! s) as [[d|fig]|] eqn:Hd; cbn;
    repeat split; try reflexivity; intros Hno; try reflexivity.
  destruct (Hno d eq_refl).
Qed.

(** [parse] writes nothing: whatever its argument and outcome, the disk,
    the output file and the extension of the handler are as before. *)
Theorem parse_never_writes st filename :
  disk (fst (parse zero filename st)) = disk st ∧
  outfile (self (fst (parse zero filename st))) = outfile (self st) ∧
  extension (self (fst (parse zero filename st))) = extension (self st).
Proof.
  rewrite parse_eq. repeat case_match; repeat split; reflexivity.
Qed.

(** [parse] can be repeated: parsing again the file that was just parsed
    returns the same table. *)
Theorem parse_repeatable st filename st1 t :
  parse zero filename st = (st1, Return t) →
  ∃ st2, parse zero filename st1 = (st2, Return t).
Proof.
  rewrite parse_eq. intros Hparse.
  destruct filename as [|f|z]; [discriminate| |discriminate].
  destruct (decide _) as [Hext|Hext]; [|discriminate].
  destruct (disk st !! f) as [[d|fig]|] eqn:Hd; [|discriminate..].
  cbv zeta in Hparse. injection Hparse as <- <-.
  eexists. apply parse_total; [exact Hext|exact Hd].
Qed.

(** [write] then [parse]: with an input source established whose mesh
    is a point set, a table of three columns with a row for every point
    of the mesh, and a path [g] with the extension that can be written
    (the input path itself included), writing the table to [g] and
    parsing [g] returns the table as the point container holds it and as
    the writer prints it, and makes [g] the input file of the handler. *)
Theorem write_then_parse st f d t g :
  infile (self st) = PyStr f →
  disk st !! f = Some (MeshFile d) →
  is_point_set (ds_kind d) = true →
  path_suffix g = extension (self st) →
  can_write g = true →
  length t = length (ds_points d) →
  three_columns t →
  ∃ st1 st2,
    write vtk_float VTK_MAJOR_VERSION t (PyStr g) st = (st1, Return ()) ∧
    parse zero (PyStr g) st1 = (st2, Return (written_table vtk_float t)) ∧
    infile (self st2) = PyStr g.
Proof.
  intros Hin Hd Hset Hext Hcan Hlen Hcols.
  destruct (write_full_table st f d t g Hin Hd Hset Hext Hlen Hcols)
    as (points & Hwrite & Hpoints).
  rewrite Hcan in Hwrite.
  eexists _, _. split; [exact Hwrite|].
  rewrite (parse_total _ g (write_output d points));
    [|exact Hext|apply lookup_insert_eq].
  cbn [write_output written ds_points].
  rewrite (written_rows points _ Hpoints). split; reflexivity.
Qed.

(** [write] writes last: whenever it raises, the disk is as before and
    no write was logged. *)
Theorem write_failure_atomic st t filename st' e :
  write vtk_float VTK_MAJOR_VERSION t filename st = (st', Raise e) →
  disk st' = disk st ∧
  ∀ path, FileWritten path ∈ io_log st' → FileWritten path ∈ io_log st.
Proof.
  rewrite write_eq. intros Hwrite.
  repeat case_match; try discriminate; injection Hwrite as <- <-; cbn;
    (split; [reflexivity|]); intros path Hin; try exact Hin;
    apply elem_of_app in Hin as [Hin|Hin]; try exact Hin;
    apply list_elem_of_singleton in Hin; discriminate Hin.
Qed.

(** [write] assigns [self.outfile] once its three checks have passed and
    before it reads: with an input file recorded and a path with the
    handler's extension, the state after the call has that path as output
    file and the input file as before, whatever the outcome; the I/O of
    the call is the read of the input file, followed by the write of the
    output path when the call completes. *)
Theorem write_records_outfile_first st f t g :
  infile (self st) = PyStr f →
  path_suffix g = extension (self st) →
  let st' := fst (write vtk_float VTK_MAJOR_VERSION t (PyStr g) st) in
  outfile (self st') = PyStr g ∧
  infile (self st') = PyStr f ∧
  ((snd (write vtk_float VTK_MAJOR_VERSION t (PyStr g) st) = Return () ∧
    io_log st' = io_log st ++ [FileRead f; FileWritten g]) ∨
   (is_raise (snd (write vtk_float VTK_MAJOR_VERSION t (PyStr g) st)) = true ∧
    io_log st' = io_log st ++ [FileRead f])).
Proof.
  intros Hin Hext. cbv zeta. rewrite write_eq.
  destruct (decide _) as [_|Hne]; [|contradiction].
  rewrite Hin. cbv zeta.
  destruct (disk st !! f) as [[d|fig]|];
    [|cbn; rewrite Hin; repeat split; right; split; reflexivity..].
  destruct (for_range _ _ _) as [points|e];
    [destruct (is_point_set (ds_kind d)); [destruct (can_write g)|]|];
    cbn; rewrite Hin; (split; [reflexivity|]); (split; [reflexivity|]);
    first [left; split; [reflexivity|rewrite <- app_assoc; reflexivity]
          |right; split; reflexivity].
Qed.

(** What a [write] leaves at a path that is not its output path, or that
    cannot be written, is what the path held. *)
Lemma write_disk_lookup st t g (path : string) :
  path ≠ g ∨ can_write path = false →
  disk (fst (write vtk_float VTK_MAJOR_VERSION t (PyStr g) st)) !! path
  = disk st !! path.
Proof.
  intros Hpath. rewrite write_eq.
  repeat case_match; cbn; try reflexivity.
  apply lookup_insert_ne. destruct Hpath as [Hne|Hcan]; congruence.
Qed.

(** [write] reads its input again at every call.  After a first [write]
    to a path other than the input file, whatever its outcome, a second
    [write] has the outcome it would have had without the first, and when
    it completes it leaves at its output path the file it would have
    left. *)
Theorem write_rereads_input st f t1 g1 t2 filename2 :
  infile (self st) = PyStr f →
  g1 ≠ f →
  let st1 := fst (write vtk_float VTK_MAJOR_VERSION t1 (PyStr g1) st) in
  snd (write vtk_float VTK_MAJOR_VERSION t2 filename2 st1)
  = snd (write vtk_float VTK_MAJOR_VERSION t2 filename2 st) ∧
  (snd (write vtk_float VTK_MAJOR_VERSION t2 filename2 st) = Return () →
   ∀ g2, filename2 = PyStr g2 →
     disk (fst (write vtk_float VTK_MAJOR_VERSION t2 filename2 st1)) !! g2
     = disk (fst (write vtk_float VTK_MAJOR_VERSION t2 filename2 st)) !! g2).
Proof.
  intros Hin Hg1. cbv zeta.
  set (st1 := fst (write vtk_float VTK_MAJOR_VERSION t1 (PyStr g1) st)).
  assert (extension (self st1) = extension (self st)) as Hext1
    by (unfold st1; rewrite write_eq; repeat case_match; reflexivity).
  assert (infile (self st1) = PyStr f) as Hin1
    by (unfold st1; rewrite write_eq; repeat case_match; cbn; congruence).
  assert (disk st1 !! f = disk st !! f) as Hf
    by (apply write_disk_lookup; left; congruence).
  assert (∀ g2, can_write g2 = false → disk st1 !! g2 = disk st !! g2) as Hg2
    by (intros g2 Hcan; apply write_disk_lookup; right; exact Hcan).
  rewrite !write_eq.
  destruct filename2 as [|g2|z]; [split; [reflexivity|discriminate]| |
                                  split; [reflexivity|discriminate]].
  rewrite Hext1, Hin1, Hin, Hf.
  destruct (decide _) as [_|_]; [|split; [reflexivity|discriminate]].
  cbv zeta.
  destruct (disk st !! f) as [[d|fig]|]; [|split; [reflexivity|discriminate]..].
  destruct (for_range _ _ _) as [points|e]; [|split; [reflexivity|discriminate]].
  destruct (is_point_set (ds_kind d)); [|split; [reflexivity|discriminate]].
  split; [reflexivity|]. intros _ g [= <-].
  destruct (can_write g2) eqn:Hcan; cbn.
  - rewrite !lookup_insert_eq. reflexivity.
  - apply Hg2. exact Hcan.
Qed.

(** [plot] and [show] work on a local path: whatever their arguments and
    outcome, the handler (input file, output file, extension) is as
    before, though a path was given; and [show] leaves the disk as it
    was. *)
Theorem display_keeps_handler st arg save_fig :
  self (fst (plot zero arg save_fig st)) = self st ∧
  self (fst (show VTK_MAJOR_VERSION GetScalarRange arg st)) = self st ∧
  disk (fst (show VTK_MAJOR_VERSION GetScalarRange arg st)) = disk st.
Proof.
  rewrite plot_eq, show_eq. repeat case_match; repeat split; reflexivity.
Qed.

(** [plot] displays last: whenever it raises, no figure was shown, the
    disk is as before, and the only I/O it may have done is the read of
    the plotted path. *)
Theorem plot_failure_atomic st plot_file save_fig st' e :
  plot zero plot_file save_fig st = (st', Raise e) →
  disk st' = disk st ∧
  (io_log st' = io_log st ∨
   ∃ s, displayed_path plot_file st = PyStr s ∧ io_log st' = io_log st ++ [FileRead s]).
Proof.
  intros Hplot.
  destruct (plot_cases st plot_file save_fig)
    as [[e' He]|[[_ [figure Hfig]]|(s & Hs & [[e' He]|[figure Hfig]])]].
  - rewrite He in Hplot. injection Hplot as <- _. split; [reflexivity|left; reflexivity].
  - rewrite Hfig in Hplot. discriminate Hplot.
  - rewrite He in Hplot. injection Hplot as <- _. split; [reflexivity|].
    right. exists s. split; [exact Hs|reflexivity].
  - rewrite Hfig in Hplot. discriminate Hplot.
Qed.

(** The vertex array of a triangle is 3 by 3. *)
Lemma triangle_vertices_shape (points : list (@Point coord)) (ids : list nat)
    (v : list (list coord)) :
  triangle_vertices points ids = Return v →
  ∃ a b c : Point, v = [row_of_point a; row_of_point b; row_of_point c].
Proof.
  unfold triangle_vertices.
  destruct (py_index ids 0) as [a|]; [|discriminate]. cbn.
  destruct (points_GetPoint points a) as [pa|]; [|discriminate]. cbn.
  destruct (py_index ids 1) as [b|]; [|discriminate]. cbn.
  destruct (points_GetPoint points b) as [pb|]; [|discriminate]. cbn.
  destruct (py_index ids 2) as [c|]; [|discriminate]. cbn.
  destruct (points_GetPoint points c) as [pc|]; [|discriminate]. cbn.
  intros [= <-]. exists pa, pb, pc. reflexivity.
Qed.

Lemma entries_length (vs : list (list (list coord))) (j k : nat) :
  Forall (fun v => ∃ a b c : Point, v = [row_of_point a; row_of_point b; row_of_point c])
    vs →
  (j < 3)%nat → (k < 3)%nat →
  length (omap (fun plane : list (list coord) => row ← plane !! j; row !! k) vs)
  = length vs.
Proof.
  intros Hall Hj Hk.
  induction Hall as [|v vs ([[xa ya] za] & [[xb yb] zb] & [[xc yc] zc] & ->) _ IH];
    [reflexivity|].
  destruct j as [|[|[|j]]]; [| | |lia];
    (destruct k as [|[|[|k]]]; [| | |lia]); cbn; rewrite IH; reflexivity.
Qed.

Lemma flatten3_F_length (vs : list (list (list coord))) :
  Forall (fun v => ∃ a b c : Point, v = [row_of_point a; row_of_point b; row_of_point c])
    vs →
  length (np_flatten3_F vs) = (9 * length vs)%nat.
Proof.
  intros Hall. destruct vs as [|v vs]; [reflexivity|].
  pose proof (Forall_inv Hall) as ([[xa ya] za] & [[xb yb] zb] & [[xc yc] zc] & ->).
  unfold np_flatten3_F.
  cbn [head from_option length row_of_point seq fmap list_fmap concat].
  rewrite !length_app, !(entries_length _ _ _ Hall) by lia.
  cbn [length]. lia.
Qed.

(** The figure of [plot] is scaled on the three axes with one and the
    same data.  With a numpy that takes the order of [flatten] by its
    truth value, the order [-1] is true, the order of Fortran: the data
    are all the coordinates of all the vertices of the triangles of the
    figure, the first index running fastest, nine numbers for every cell
    of the mesh.  With a numpy that rejects the order, no figure is
    made, whatever the mesh. *)
Theorem plot_scale_shared data :
  (numpy_order_by_truth = true →
   ∀ figure, plot_figure zero data = Return figure →
     ∃ scale,
       fig_scale figure = Some (scale, scale, scale) ∧
       scale = np_flatten3_F (concat (poly_verts <$> fig_collections figure)) ∧
       length scale = (9 * length (ds_cells data))%nat) ∧
  (numpy_order_by_truth = false → is_raise (plot_figure zero data) = true).
Proof.
  split; [|apply plot_figure_numpy].
  intros Hnumpy figure. rewrite plot_figure_eq.
  destruct (has_cell_array data); [|discriminate].
  destruct (mapR cell_ids3 (ds_cells data)) as [ids|e] eqn:Hids; [|discriminate].
  cbn [mbind result_bind].
  destruct (mapR _ ids) as [vs|e] eqn:Hvs; [|discriminate].
  cbn [mbind result_bind]. unfold np_flatten3_order. rewrite Hnumpy.
  cbn [mbind result_bind]. intros [= <-]. cbn [fig_scale fig_collections].
  exists (np_flatten3_F vs). split; [reflexivity|].
  assert (concat (poly_verts <$> (blue_triangle <$> vs)) = vs) as ->.
  { clear Hvs. induction vs as [|v vs IH]; [reflexivity|]. cbn. rewrite IH. reflexivity. }
  split; [reflexivity|].
  rewrite flatten3_F_length.
  - rewrite (mapR_length _ _ _ Hvs), (mapR_length _ _ _ Hids). reflexivity.
  - apply mapR_Return in Hvs. clear Hids.
    induction Hvs as [|i v ids vs Hv _ IH]; constructor; [|exact IH].
    eapply triangle_vertices_shape. exact Hv.
Qed.

(** A plotted path that begins with a dot (a path relative to the current
    or to the parent directory written with its dot) has no text before
    its first dot: the name handed to the plotting library is ".png", in
    which it finds no format, so that in save mode, whenever [plot]
    completes on such a path, the image is the file ".png.png". *)
Theorem plot_saves_dot_path st (rest : string) st' :
  plot zero (PyStr (String "." rest)) true st = (st', Return ()) →
  ∃ figure, disk st' = <[".png.png" := ImageFile figure]> (disk st).
Proof.
  intros Hplot.
  assert (saved_image (String "." rest) = ".png.png") as Hname by reflexivity.
  destruct (plot_cases st (PyStr (String "." rest)) true)
    as [[e He]|[[Hmode _]|(s & Hs & [[e He]|[figure Hfig]])]].
  - rewrite He in Hplot. discriminate Hplot.
  - discriminate Hmode.
  - rewrite He in Hplot. discriminate Hplot.
  - injection Hs as <-. rewrite Hfig, Hname in Hplot. injection Hplot as <-.
    exists figure. reflexivity.
Qed.

(** Without an argument, [plot] and [show] work on the recorded input
    file: they do what they do when that path is passed to them. *)
Theorem display_default_is_infile st s save_fig :
  infile (self st) = PyStr s →
  plot zero PyNone save_fig st = plot zero (PyStr s) save_fig st ∧
  show VTK_MAJOR_VERSION GetScalarRange PyNone st
  = show VTK_MAJOR_VERSION GetScalarRange (PyStr s) st.
Proof.
  intros Hin. rewrite !plot_eq, !show_eq. cbn [displayed_path]. rewrite Hin.
  split; reflexivity.
Qed.

Lemma cell_ids3_first_three (c1 c2 : Cell) :
  take 3 (cell_point_ids c1) = take 3 (cell_point_ids c2) →
  cell_ids3 c1 = cell_ids3 c2.
Proof.
  intros Hids. unfold cell_ids3, GetPointId.
  rewrite <- !(lookup_take_lt (cell_point_ids c1) 3) by lia.
  rewrite <- !(lookup_take_lt (cell_point_ids c2) 3) by lia.
  rewrite Hids. reflexivity.
Qed.

(** The figure of [plot] is a function of the points of the mesh and of
    the first three point indices of each cell, nothing else: two meshes
    that agree on these (whatever their cell types, their further indices
    and their attribute arrays) give the same figure, or fail alike. *)
Theorem plot_figure_first_three data1 data2 :
  ds_points data1 = ds_points data2 →
  (fun c => take 3 (cell_point_ids c)) <$> ds_cells data1
  = (fun c => take 3 (cell_point_ids c)) <$> ds_cells data2 →
  plot_figure zero data1 = plot_figure zero data2.
Proof.
  intros Hpoints Hcells. rewrite !plot_figure_eq, Hpoints.
  assert (has_cell_array data1 = has_cell_array data2) as ->.
  { unfold has_cell_array.
    destruct (ds_cells data1), (ds_cells data2); try discriminate Hcells; reflexivity. }
  assert (mapR cell_ids3 (ds_cells data1) = mapR cell_ids3 (ds_cells data2)) as ->;
    [|reflexivity].
  generalize dependent (ds_cells data2).
  induction (ds_cells data1) as [|c1 cells1 IH]; intros [|c2 cells2] Hcells;
    try discriminate Hcells; [reflexivity|].
  injection Hcells as Hc Hcells. cbn.
  rewrite (cell_ids3_first_three c1 c2 Hc), (IH cells2 Hcells). reflexivity.
Qed.

End Properties.

(** * The claims on the example mesh *)



Lemma parse_shape_example :
  ∃ f d,
    PyStr "mesh.vtk" = PyStr f ∧ disk Example.fresh !! f = Some (MeshFile d) ∧
    length Example.table = length (ds_points d) ∧
    three_columns Example.table ∧
    ∀ i x y z, ds_points d !! i = Some (x, y, z) → Example.table !! i = Some [x; y; z].
Proof.
  apply (parse_shape 0%Z Example.fresh (PyStr "mesh.vtk") Example.parsed Example.table).
  vm_compute. reflexivity.
Defined.



Lemma write_before_parse_example :
  write Example.store Example.version Example.table (PyStr "out.vtk")
    (run_calls 0%Z Example.store Example.version Example.scalar_range
       Example.fresh Example.calls_without_parse)
  = (run_calls 0%Z Example.store Example.version Example.scalar_range
       Example.fresh Example.calls_without_parse,
     Raise PreconditionError).
Proof.
  apply (write_before_parse 0%Z Example.store Example.version Example.scalar_range
           Example.files Example.calls_without_parse Example.table "out.vtk").
  - reflexivity.
  - reflexivity.
Defined.

Lemma bad_path_rejected_example :
  (∃ why, parse 0%Z (PyStr "mesh.stl") Example.parsed
          = (Example.parsed, Raise (InvalidArgument why))) ∧
  (∃ why, write Example.store Example.version Example.table (PyStr "mesh.stl")
            Example.parsed
          = (Example.parsed, Raise (InvalidArgument why))).
Proof.
  apply (bad_path_rejected 0%Z Example.store Example.version Example.parsed
           (PyStr "mesh.stl") Example.table).
  - reflexivity.
  - intros s [= <-]. vm_compute. discriminate.
Defined.

Lemma display_checks_type_only_example :
  ((∀ s, PyInt 7 ≠ PyStr s) →
     plot 0%Z (PyInt 7) true Example.parsed
     = (Example.parsed, Raise (InvalidArgument NotAString)) ∧
     show Example.version Example.scalar_range (PyInt 7) Example.parsed
     = (Example.parsed, Raise (InvalidArgument NotAString))) ∧
  (∀ s, PyInt 7 = PyStr s →
     (∃ rest, io_log (fst (plot 0%Z (PyInt 7) true Example.parsed))
              = io_log Example.parsed ++ FileRead s :: rest) ∧
     (∃ rest, io_log (fst (show Example.version Example.scalar_range (PyInt 7)
                             Example.parsed))
              = io_log Example.parsed ++ FileRead s :: rest)).
Proof.
  apply (display_checks_type_only 0%Z Example.version Example.scalar_range
           Example.parsed (PyInt 7) true).
  discriminate.
Defined.

(** [parse] rejects the path "mesh.stl" for its extension, before any
    I/O; [plot] and [show], given the same path, make no such check: they
    read the file and complete. *)
Lemma display_skips_extension_check :
  parse 0%Z (PyStr "mesh.stl") Example.fresh
  = (Example.fresh, Raise (InvalidArgument WrongExtension)) ∧
  snd (plot 0%Z (PyStr "mesh.stl") false Example.fresh) = Return () ∧
  head (io_log (fst (plot 0%Z (PyStr "mesh.stl") false Example.fresh)))
  = Some (FileRead "mesh.stl") ∧
  snd (show Example.version Example.scalar_range (PyStr "mesh.stl") Example.fresh)
  = Return () ∧
  head (io_log (fst (show Example.version Example.scalar_range (PyStr "mesh.stl")
                       Example.fresh)))
  = Some (FileRead "mesh.stl").
Proof. vm_compute. repeat split. Qed.

Lemma plot_one_triangle_per_cell_example :
  (∃ figure,
     disk Example.plotted !! "mesh.png" = Some (ImageFile figure) ∧
     length (fig_collections figure) = length (ds_cells Example.mesh) ∧
     Forall2 (fun c tri => triangle (ds_points Example.mesh) c = Some tri)
       (ds_cells Example.mesh) (fig_collections figure)) ∧
  (∃ st', plot 0%Z PyNone true Example.parsed = (st', Return ())) ∧
  (∃ e, plot 0%Z (PyStr "wire.vtk") false Example.fresh
        = (with_event (FileRead "wire.vtk") Example.fresh, Raise e)).
Proof.
  destruct (plot_one_triangle_per_cell 0%Z Example.parsed PyNone "mesh.vtk"
              Example.mesh true) as (Hdone & Htotal & _);
    [reflexivity|vm_compute; reflexivity|reflexivity|].
  destruct (plot_one_triangle_per_cell 0%Z Example.fresh (PyStr "wire.vtk") "wire.vtk"
              Example.wire false) as (_ & _ & Hraise & Hshort & _);
    [reflexivity|vm_compute; reflexivity|reflexivity|].
  split; [|split].
  - apply (Hdone Example.plotted). vm_compute. reflexivity.
  - apply Htotal.
    + reflexivity.
    + discriminate.
    + repeat constructor; eexists; reflexivity.
    + reflexivity.
  - apply (Hraise (mkCell 3 [0; 1]%nat)).
    + right. left.
    + apply Hshort. cbn. lia.
Defined.

(** C7, against the claim.  On a grid with a line among its cells, a
    cell of two point indices, [plot] raises when it asks for the third:
    no figure is shown, none is saved. *)
Lemma plot_raises_on_line_cell :
  disk Example.fresh !! "wire.vtk" = Some (MeshFile Example.wire) ∧
  mkCell 3 [0; 1]%nat ∈ ds_cells Example.wire ∧
  plot 0%Z (PyStr "wire.vtk") false Example.fresh
  = (with_event (FileRead "wire.vtk") Example.fresh, Raise ToolkitError) ∧
  plot 0%Z (PyStr "wire.vtk") true Example.fresh
  = (with_event (FileRead "wire.vtk") Example.fresh, Raise ToolkitError).
Proof.
  split; [vm_compute; reflexivity|]. split; [right; left|].
  split; vm_compute; reflexivity.
Qed.



(** C9, on the code.  [show] on the example mesh starts a session whose
    renderer has the background (20, 20, 20): with white at (1, 1, 1),
    that is no colour of the normalized convention, let alone one near
    black. *)
Theorem show_background_exceeds_white :
  ∃ interactor window renderer,
    last (io_log (fst (show Example.version Example.scalar_range (PyStr "mesh.vtk")
                         Example.fresh)))
    = Some (InteractiveSession interactor) ∧
    iren_window interactor = Some window ∧
    win_renderers window = [renderer] ∧
    ren_background renderer = (20, 20, 20)%Z ∧
    ¬ normalized (ren_background renderer).
Proof.
  apply (show_background Example.version Example.scalar_range Example.fresh
           (PyStr "mesh.vtk")
           (fst (show Example.version Example.scalar_range (PyStr "mesh.vtk")
                   Example.fresh))).
  vm_compute. reflexivity.
Qed.

Lemma write_copies_point_count_example :
  (write Example.store Example.version Example.long (PyStr "out.vtk") Example.parsed
   = write Example.store Example.version Example.moved (PyStr "out.vtk") Example.parsed ∧
   ∃ d',
     write Example.store Example.version Example.long (PyStr "out.vtk") Example.parsed
     = (with_event (FileWritten "out.vtk")
          (with_file "out.vtk" (MeshFile d')
             (with_event (FileRead "mesh.vtk")
                (with_outfile (PyStr "out.vtk") Example.parsed))),
        Return ()) ∧
     length (ds_points d') = length (ds_points Example.mesh) ∧
     row_of_point <$> ds_points d' = written_table Example.store Example.moved) ∧
  (write Example.store Example.version Example.short (PyStr "out.vtk") Example.parsed
   = (with_event (FileRead "mesh.vtk") (with_outfile (PyStr "out.vtk") Example.parsed),
      Raise IndexError) ∧
   disk (with_event (FileRead "mesh.vtk")
           (with_outfile (PyStr "out.vtk") Example.parsed))
   = disk Example.parsed).
Proof.
  destruct (write_copies_point_count Example.store Example.version Example.parsed
              "mesh.vtk" Example.mesh Example.long "out.vtk")
    as (Hlong & _ & _);
    [vm_compute; reflexivity|vm_compute; reflexivity|reflexivity|].
  destruct (write_copies_point_count Example.store Example.version Example.parsed
              "mesh.vtk" Example.mesh Example.short "out.vtk")
    as (_ & _ & Hshort);
    [vm_compute; reflexivity|vm_compute; reflexivity|reflexivity|].
  split.
  - destruct Hlong as [Htake Hdone]; [cbn; lia|].
    split; [exact Htake|]. apply Hdone; [repeat constructor|reflexivity].
  - apply Hshort; [cbn; lia|repeat constructor].
Defined.

(** * Further properties on the example mesh *)

Lemma parse_records_infile_first_example :
  infile (self (fst (parse 0%Z (PyStr "missing.vtk") Example.parsed)))
  = PyStr "missing.vtk" ∧
  outfile (self (fst (parse 0%Z (PyStr "missing.vtk") Example.parsed)))
  = outfile (self Example.parsed) ∧
  disk (fst (parse 0%Z (PyStr "missing.vtk") Example.parsed)) = disk Example.parsed ∧
  io_log (fst (parse 0%Z (PyStr "missing.vtk") Example.parsed))
  = io_log Example.parsed ++ [FileRead "missing.vtk"] ∧
  ((∀ d, disk Example.parsed !! "missing.vtk" ≠ Some (MeshFile d)) →
   snd (parse 0%Z (PyStr "missing.vtk") Example.parsed) = Raise ToolkitError).
Proof.
  apply (parse_records_infile_first 0%Z Example.parsed "missing.vtk").
  reflexivity.
Defined.

Lemma parse_repeatable_example :
  ∃ st2, parse 0%Z (PyStr "mesh.vtk") Example.parsed = (st2, Return Example.table).
Proof.
  apply (parse_repeatable 0%Z Example.fresh (PyStr "mesh.vtk") Example.parsed
           Example.table).
  vm_compute. reflexivity.
Defined.

Lemma write_then_parse_example :
  ∃ st1 st2,
    write Example.store Example.version Example.moved (PyStr "mesh.vtk") Example.parsed
    = (st1, Return ()) ∧
    parse 0%Z (PyStr "mesh.vtk") st1
    = (st2, Return (written_table Example.store Example.moved)) ∧
    infile (self st2) = PyStr "mesh.vtk".
Proof.
  apply (write_then_parse 0%Z Example.store Example.version Example.parsed
           "mesh.vtk" Example.mesh Example.moved "mesh.vtk").
  - vm_compute. reflexivity.
  - vm_compute. reflexivity.
  - reflexivity.
  - reflexivity.
  - reflexivity.
  - reflexivity.
  - repeat constructor.
Defined.

Lemma write_failure_atomic_example :
  disk (fst (write Example.store Example.version Example.short (PyStr "out.vtk")
               Example.parsed))
  = disk Example.parsed ∧
  ∀ path,
    FileWritten path ∈ io_log (fst (write Example.store Example.version Example.short
                                      (PyStr "out.vtk") Example.parsed)) →
    FileWritten path ∈ io_log Example.parsed.
Proof.
  apply (write_failure_atomic Example.store Example.version Example.parsed
           Example.short (PyStr "out.vtk") _ IndexError).
  vm_compute. reflexivity.
Defined.

Lemma write_records_outfile_first_example :
  outfile (self (fst (write Example.store Example.version Example.short
                        (PyStr "out.vtk") Example.parsed)))
  = PyStr "out.vtk" ∧
  infile (self (fst (write Example.store Example.version Example.short
                       (PyStr "out.vtk") Example.parsed)))
  = PyStr "mesh.vtk" ∧
  ((snd (write Example.store Example.version Example.short (PyStr "out.vtk")
           Example.parsed) = Return () ∧
    io_log (fst (write Example.store Example.version Example.short (PyStr "out.vtk")
                   Example.parsed))
    = io_log Example.parsed ++ [FileRead "mesh.vtk"; FileWritten "out.vtk"]) ∨
   (is_raise (snd (write Example.store Example.version Example.short (PyStr "out.vtk")
                     Example.parsed)) = true ∧
    io_log (fst (write Example.store Example.version Example.short (PyStr "out.vtk")
                   Example.parsed))
    = io_log Example.parsed ++ [FileRead "mesh.vtk"])).
Proof.
  apply (write_records_outfile_first Example.store Example.version Example.parsed
           "mesh.vtk" Example.short "out.vtk").
  - vm_compute. reflexivity.
  - reflexivity.
Defined.

Lemma write_rereads_input_example :
  snd (write Example.store Example.version Example.moved (PyStr "b.vtk")
         (fst (write Example.store Example.version Example.table (PyStr "a.vtk")
                 Example.parsed)))
  = snd (write Example.store Example.version Example.moved (PyStr "b.vtk")
           Example.parsed) ∧
  (snd (write Example.store Example.version Example.moved (PyStr "b.vtk")
          Example.parsed) = Return () →
   ∀ g2, PyStr "b.vtk" = PyStr g2 →
     disk (fst (write Example.store Example.version Example.moved (PyStr "b.vtk")
                  (fst (write Example.store Example.version Example.table
                          (PyStr "a.vtk") Example.parsed)))) !! g2
     = disk (fst (write Example.store Example.version Example.moved (PyStr "b.vtk")
                    Example.parsed)) !! g2).
Proof.
  apply (write_rereads_input Example.store Example.version Example.parsed
           "mesh.vtk" Example.table "a.vtk" Example.moved (PyStr "b.vtk")).
  - vm_compute. reflexivity.
  - discriminate.
Defined.

Lemma plot_failure_atomic_example :
  disk (fst (plot 0%Z (PyStr "missing.vtk") true Example.parsed)) = disk Example.parsed ∧
  (io_log (fst (plot 0%Z (PyStr "missing.vtk") true Example.parsed))
   = io_log Example.parsed ∨
   ∃ s, displayed_path (PyStr "missing.vtk") Example.parsed = PyStr s ∧
        io_log (fst (plot 0%Z (PyStr "missing.vtk") true Example.parsed))
        = io_log Example.parsed ++ [FileRead s]).
Proof.
  apply (plot_failure_atomic 0%Z Example.parsed (PyStr "missing.vtk") true _
           ToolkitError).
  vm_compute. reflexivity.
Defined.

Lemma plot_scale_shared_example :
  (∃ scale,
     fig_scale Example.figure = Some (scale, scale, scale) ∧
     scale = np_flatten3_F (concat (poly_verts <$> fig_collections Example.figure)) ∧
     length scale = (9 * length (ds_cells Example.mesh))%nat) ∧
  is_raise (@plot_figure Z Example.recent 0%Z Example.mesh) = true.
Proof.
  split.
  - apply (proj1 (plot_scale_shared 0%Z Example.mesh)); [|vm_compute]; reflexivity.
  - apply (proj2 (@plot_scale_shared Z Example.recent 0%Z Example.mesh)). reflexivity.
Defined.

Lemma plot_saves_dot_path_example :
  ∃ figure,
    disk (fst (plot 0%Z (PyStr "./mesh.vtk") true Example.local))
    = <[".png.png" := ImageFile figure]> (disk Example.local).
Proof.
  apply (plot_saves_dot_path 0%Z Example.local "/mesh.vtk").
  vm_compute. reflexivity.
Defined.

Lemma display_default_is_infile_example :
  plot 0%Z PyNone true Example.parsed = plot 0%Z (PyStr "mesh.vtk") true Example.parsed ∧
  show Example.version Example.scalar_range PyNone Example.parsed
  = show Example.version Example.scalar_range (PyStr "mesh.vtk") Example.parsed.
Proof.
  apply (display_default_is_infile 0%Z Example.version Example.scalar_range
           Example.parsed "mesh.vtk" true).
  vm_compute. reflexivity.
Defined.

Lemma plot_figure_first_three_example :
  plot_figure 0%Z Example.mesh = plot_figure 0%Z Example.polygons.
Proof.
  apply (plot_figure_first_three 0%Z Example.mesh Example.polygons).
  - reflexivity.
  - reflexivity.
Defined.
